(** * Polar-plant EC dashboard: the data pipeline of [main.py]

    A shallow embedding of the loading and aggregation code of the
    Streamlit script [src/main.py] (name normalisation, directory scan,
    cached loaders, start-up check, the overview tab, the environment
    averages and the growth-results tab), followed by the properties of
    the specification that concern it.

    Conventions of the embedding.
    - A Python [str] is the list of its Unicode code points.
    - A Python [dict] is an association list in insertion order: iteration
      order is observable in the script (first maximum, last file wins).
    - Code that can raise returns a [result].
    - A pandas float is a rational or NaN: arithmetic is exact, rounding
      and infinities of binary64 are not represented.
    - Library calls ([pathlib], [pandas], [unicodedata], [st.cache_data])
      are written out after their documented behaviour; the files on disk
      and the parsers that read them are a parameter, [filesystem].
    - Chart construction and widgets are outside the embedding. *)

From Stdlib Require Import List String Ascii Bool Arith NArith ZArith QArith Lia Lqa.
Import ListNotations.

Set Implicit Arguments.

(* ================================================================== *)
(** ** Python values *)

Module Py.

(** [str]: a sequence of code points. *)
Definition str := list N.

(** Literals are written as UTF-8 text and decoded to code points. *)
Fixpoint decode_utf8 (bs : list N) : str :=
  match bs with
  | [] => []
  | b :: r =>
      if (b <? 128)%N then b :: decode_utf8 r
      else if (b <? 224)%N then
        match r with
        | b1 :: r1 => ((b - 192) * 64 + (b1 - 128))%N :: decode_utf8 r1
        | _ => [b]
        end
      else if (b <? 240)%N then
        match r with
        | b1 :: b2 :: r2 =>
            ((b - 224) * 4096 + (b1 - 128) * 64 + (b2 - 128))%N :: decode_utf8 r2
        | _ => [b]
        end
      else
        match r with
        | b1 :: b2 :: b3 :: r3 =>
            ((b - 240) * 262144 + (b1 - 128) * 4096 + (b2 - 128) * 64 + (b3 - 128))%N
              :: decode_utf8 r3
        | _ => [b]
        end
  end.

Definition lit (s : string) : str :=
  decode_utf8 (map N_of_ascii (list_ascii_of_string s)).

(** [a == b] on strings. *)
Fixpoint str_eqb (a b : str) : bool :=
  match a, b with
  | [], [] => true
  | x :: a', y :: b' => (x =? y)%N && str_eqb a' b'
  | _, _ => false
  end.

(** Exceptions the script can meet. *)
Inductive exn : Type :=
| KeyError
| IndexError
| TypeError
| ValueError
| ZeroDivisionError
| OSError.

Inductive result (A : Type) : Type :=
| Ok (a : A)
| Raise (e : exn).
Arguments Ok {A} a.
Arguments Raise {A} e.

Definition bind {A B} (m : result A) (k : A -> result B) : result B :=
  match m with
  | Ok a => k a
  | Raise e => Raise e
  end.

(** [dict]: keys in insertion order; assigning to a key that is present
    replaces the value and keeps the key's position. *)
Definition dict (V : Type) := list (str * V).

Fixpoint dict_get {V} (d : dict V) (k : str) : option V :=
  match d with
  | [] => None
  | (k', v) :: d' => if str_eqb k' k then Some v else dict_get d' k
  end.

Fixpoint dict_set {V} (d : dict V) (k : str) (v : V) : dict V :=
  match d with
  | [] => [(k, v)]
  | (k', v') :: d' =>
      if str_eqb k' k then (k', v) :: d' else (k', v') :: dict_set d' k v
  end.

Definition keys {V} (d : dict V) : list str := map fst d.

(** [l[0]]. *)
Definition getitem0 {A} (l : list A) : result A :=
  match l with
  | x :: _ => Ok x
  | [] => Raise IndexError
  end.

(** [s.rfind(c)] for a one-character [c]: the highest index, or -1. *)
Fixpoint rfind (s : str) (c : N) : Z :=
  match s with
  | [] => (-1)%Z
  | x :: s' =>
      let r := rfind s' c in
      if (0 <=? r)%Z then (r + 1)%Z
      else if (x =? c)%N then 0%Z else (-1)%Z
  end.

(** [s.split(sep)] for a one-character separator. *)
Fixpoint split (s : str) (sep : N) : list str :=
  match s with
  | [] => [[]]
  | c :: s' =>
      if (c =? sep)%N then [] :: split s' sep
      else match split s' sep with
           | w :: ws => (c :: w) :: ws
           | [] => [[c]]
           end
  end.

Definition dot : N := 46.
Definition underscore : N := 95.

(** [PurePath.suffix] and [PurePath.stem] of a final path component. *)
Definition suffix (name : str) : str :=
  let i := rfind name dot in
  if ((0 <? i) && (i <? Z.of_nat (List.length name) - 1))%Z
  then skipn (Z.to_nat i) name else [].

Definition stem (name : str) : str :=
  let i := rfind name dot in
  if ((0 <? i) && (i <? Z.of_nat (List.length name) - 1))%Z
  then firstn (Z.to_nat i) name else name.

End Py.
Export Py.

Declare Scope py_scope.
Delimit Scope py_scope with py.
Notation "x <- m ;; k" := (bind m (fun x => k))
  (at level 61, m at next level, right associativity) : py_scope.
Open Scope py_scope.

(* ================================================================== *)
(** ** Utility functions of the script *)

Section Normalizer.

(** [unicodedata.normalize("NFC", .)], the Unicode library's table-driven
    normaliser; total on strings. *)
Variable unicodedata_normalize_NFC : str -> str.

Definition normalize_name (name : str) : str :=
  unicodedata_normalize_NFC name.

(** The directory is given by the names of its entries in iteration
    order; the entry found is returned by name. *)
Fixpoint find_file_by_name (directory : list str) (target_name : str)
  : option str :=
  let target_norm := normalize_name target_name in
  match directory with
  | [] => None
  | file :: rest =>
      if str_eqb (normalize_name file) target_norm then Some file
      else find_file_by_name rest target_name
  end.

End Normalizer.

(* ================================================================== *)
(** ** pandas: floats, cells, frames *)

Module Pandas.

(** A float64 value: a number or NaN. *)
Inductive float : Type :=
| Fin (q : Q)
| NaN.

Definition fadd (a b : float) : float :=
  match a, b with
  | Fin x, Fin y => Fin (x + y)
  | _, _ => NaN
  end.

Definition fdiv_nat (a : float) (n : nat) : float :=
  match a with
  | Fin x => Fin (x / inject_Z (Z.of_nat n))
  | NaN => NaN
  end.

(** A cell of a table read from a file: a number, a missing value (NaN)
    or text. *)
Inductive cell : Type :=
| Float (f : float)
| Text (s : str).

(** A frame: the header and the rows, each row a record keyed by column
    name; a key missing from a row reads as NaN. *)
Record DataFrame : Type := {
  columns : list str;
  rows : list (dict cell)
}.

(** [len(df)]. *)
Definition len (df : DataFrame) : nat := List.length (rows df).

Definition has_column (df : DataFrame) (c : str) : bool :=
  existsb (str_eqb c) (columns df).

Definition row_at (r : dict cell) (c : str) : cell :=
  match dict_get r c with
  | Some x => x
  | None => Float NaN
  end.

(** [df[c]]: the column as a series, [KeyError] when there is none. *)
Definition getitem (df : DataFrame) (c : str) : result (list cell) :=
  if has_column df c then Ok (map (fun r => row_at r c) (rows df))
  else Raise KeyError.

(** [Series.mean()] with the default [skipna=True], after [nanops.nanmean]:
    missing values are masked, the sum of the rest is divided by their
    count, and the mean of nothing is NaN; text cannot be summed. *)
Fixpoint nansum (vs : list cell) : result Q :=
  match vs with
  | [] => Ok 0
  | Float (Fin q) :: vs' => s <- nansum vs' ;; Ok (q + s)
  | Float NaN :: vs' => nansum vs'
  | Text _ :: _ => Raise TypeError
  end.

Fixpoint count_notna (vs : list cell) : nat :=
  match vs with
  | [] => 0
  | Float NaN :: vs' => count_notna vs'
  | _ :: vs' => S (count_notna vs')
  end.

Definition mean (vs : list cell) : result float :=
  the_sum <- nansum vs ;;
  let count := count_notna vs in
  if (0 <? count)%nat then Ok (fdiv_nat (Fin the_sum) count) else Ok NaN.

(** [Series.idxmax()] with the default [skipna=True] on a series with the
    default integer index: the position of the first occurrence of the
    maximum among the values that are not NaN; [ValueError] when the
    series is empty or all NaN. *)
Fixpoint argmax_scan (vs : list float) (i : nat) (best : option (nat * Q))
  : option (nat * Q) :=
  match vs with
  | [] => best
  | NaN :: vs' => argmax_scan vs' (S i) best
  | Fin q :: vs' =>
      match best with
      | None => argmax_scan vs' (S i) (Some (i, q))
      | Some (_, b) =>
          if Qlt_le_dec b q then argmax_scan vs' (S i) (Some (i, q))
          else argmax_scan vs' (S i) best
      end
  end.

Definition idxmax (vs : list float) : result nat :=
  match argmax_scan vs 0 None with
  | Some (i, _) => Ok i
  | None => Raise ValueError
  end.

(** [df.loc[i]] on a list of rows with the default integer index. *)
Definition loc {A} (l : list A) (i : nat) : result A :=
  match nth_error l i with
  | Some r => Ok r
  | None => Raise KeyError
  end.

(** [df.assign(name=v)] with a scalar [v]: the column is added (or
    replaced) and holds [v] in every row. *)
Definition assign (df : DataFrame) (name : str) (v : cell) : DataFrame :=
  {| columns := if has_column df name then columns df
                else columns df ++ [name];
     rows := map (fun r => dict_set r name v) (rows df) |}.

(** [pd.concat(objs)]: the rows of the frames one after the other, under
    the union of their columns in order of first appearance;
    [ValueError] when there is no frame. *)
Definition union_columns (acc : list str) (cs : list str) : list str :=
  fold_left (fun a c => if existsb (str_eqb c) a then a else a ++ [c]) cs acc.

Definition concat (objs : list DataFrame) : result DataFrame :=
  match objs with
  | [] => Raise ValueError
  | _ => Ok {| columns := fold_left (fun a df => union_columns a (columns df)) objs [];
               rows := flat_map rows objs |}
  end.

End Pandas.
Export Pandas.

(* ================================================================== *)
(** ** The data directory *)

(** What the script sees of [data/]: the names of its entries in iteration
    order and what the pandas readers return for a file. *)
Record filesystem : Type := {
  iterdir : result (list str);
  read_csv : str -> result DataFrame;
  ExcelFile_sheet_names : str -> result (list str);
  read_excel : str -> str -> result DataFrame
}.

(* ================================================================== *)
(** ** Loading *)

(** First loop of [load_environment_data]. *)
Fixpoint scan_school_files (entries : list str) (school_files : dict str)
  : result (dict str) :=
  match entries with
  | [] => Ok school_files
  | f :: rest =>
      if str_eqb (suffix f) (lit ".csv") then
        school_name <- getitem0 (split (stem f) underscore) ;;
        scan_school_files rest (dict_set school_files school_name f)
      else scan_school_files rest school_files
  end.

(** Second loop of [load_environment_data]. *)
Fixpoint read_school_files (fs : filesystem) (items : list (str * str))
  (env_data : dict DataFrame) : result (dict DataFrame) :=
  match items with
  | [] => Ok env_data
  | (school, path) :: rest =>
      df <- read_csv fs path ;;
      read_school_files fs rest (dict_set env_data school df)
  end.

Definition load_environment_data_body (fs : filesystem)
  : result (dict DataFrame) :=
  entries <- iterdir fs ;;
  school_files <- scan_school_files entries [] ;;
  read_school_files fs school_files [].

(** [for f in ...: if f.suffix == ".xlsx": xlsx_file = f; break]. *)
Fixpoint first_xlsx (entries : list str) : option str :=
  match entries with
  | [] => None
  | f :: rest =>
      if str_eqb (suffix f) (lit ".xlsx") then Some f else first_xlsx rest
  end.

Fixpoint read_sheets (fs : filesystem) (xlsx_file : str) (sheets : list str)
  (growth_data : dict DataFrame) : result (dict DataFrame) :=
  match sheets with
  | [] => Ok growth_data
  | sheet :: rest =>
      df <- read_excel fs xlsx_file sheet ;;
      read_sheets fs xlsx_file rest (dict_set growth_data sheet df)
  end.

(** [None] of Python is [None] here. *)
Definition load_growth_data_body (fs : filesystem)
  : result (option (dict DataFrame)) :=
  entries <- iterdir fs ;;
  match first_xlsx entries with
  | None => Ok None
  | Some xlsx_file =>
      sheet_names <- ExcelFile_sheet_names fs xlsx_file ;;
      growth_data <- read_sheets fs xlsx_file sheet_names [] ;;
      Ok (Some growth_data)
  end.

(** [@st.cache_data] on a function without parameters: the entry is keyed
    by the function and its (empty) argument list.  A call finds the
    entry and returns it, or runs the body and stores what it returns; a
    body that raises stores nothing.  [body_runs] counts the executions of
    a loader body, the only code that touches the disk. *)
Record session : Type := {
  env_entry : option (dict DataFrame);
  growth_entry : option (option (dict DataFrame));
  body_runs : nat
}.

Definition fresh_session : session :=
  {| env_entry := None; growth_entry := None; body_runs := 0 |}.

Definition load_environment_data (s : session) (fs : filesystem)
  : result (dict DataFrame) * session :=
  match env_entry s with
  | Some v => (Ok v, s)
  | None =>
      match load_environment_data_body fs with
      | Ok v => (Ok v, {| env_entry := Some v;
                          growth_entry := growth_entry s;
                          body_runs := S (body_runs s) |})
      | Raise e => (Raise e, {| env_entry := None;
                                growth_entry := growth_entry s;
                                body_runs := S (body_runs s) |})
      end
  end.

Definition load_growth_data (s : session) (fs : filesystem)
  : result (option (dict DataFrame)) * session :=
  match growth_entry s with
  | Some v => (Ok v, s)
  | None =>
      match load_growth_data_body fs with
      | Ok v => (Ok v, {| env_entry := env_entry s;
                          growth_entry := Some v;
                          body_runs := S (body_runs s) |})
      | Raise e => (Raise e, {| env_entry := env_entry s;
                                growth_entry := None;
                                body_runs := S (body_runs s) |})
      end
  end.

(* ================================================================== *)
(** ** Meta information *)

Definition ec_conditions : dict Q :=
  [ (lit "송도고", 1 # 1); (lit "하늘고", 2 # 1);
    (lit "아라고", 4 # 1); (lit "동산고", 8 # 1) ]%Q.

Definition school_colors : dict str :=
  [ (lit "송도고", lit "#1f77b4"); (lit "하늘고", lit "#2ca02c");
    (lit "아라고", lit "#ff7f0e"); (lit "동산고", lit "#d62728") ].

(* ================================================================== *)
(** ** Start-up *)

Definition no_data_message : str :=
  lit "❌ 데이터 파일을 찾을 수 없습니다. data 폴더를 확인하세요.".

(** Truth value of a dict, and of a dict or [None]. *)
Definition truthy {V} (d : dict V) : bool :=
  match d with [] => false | _ => true end.

Definition truthy_opt {V} (d : option (dict V)) : bool :=
  match d with None => false | Some d' => truthy d' end.

(** What the lines up to [st.stop()] leave: the run is stopped after
    [st.error], or goes on with both mappings. *)
Inductive startup : Type :=
| Stop (message : str)
| Proceed (env_data : dict DataFrame) (growth_data : dict DataFrame).

Definition startup_check (env_data : dict DataFrame)
  (growth_data : option (dict DataFrame)) : startup :=
  if negb (truthy env_data) || negb (truthy_opt growth_data)
  then Stop no_data_message
  else match growth_data with
       | Some g => Proceed env_data g
       | None => Stop no_data_message
       end.

Definition load_all (s : session) (fs : filesystem)
  : result startup * session :=
  let '(env_r, s1) := load_environment_data s fs in
  match env_r with
  | Raise e => (Raise e, s1)
  | Ok env_data =>
      let '(growth_r, s2) := load_growth_data s1 fs in
      match growth_r with
      | Raise e => (Raise e, s2)
      | Ok growth_data => (Ok (startup_check env_data growth_data), s2)
      end
  end.

(* ================================================================== *)
(** ** Tab 1: overview *)

Record overview_row : Type := {
  ov_school : str;             (* "학교명" *)
  ov_ec_target : option Q;     (* "EC 목표" *)
  ov_count : nat;              (* "개체수" *)
  ov_color : option str        (* "색상" *)
}.

(** The values handed to the table and to the four metrics; the two
    averages are the numbers before [:.1f] formatting. *)
Record overview : Type := {
  summary_rows : list overview_row;
  total_count : nat;
  metric_avg_temperature : float;
  metric_avg_humidity : float;
  metric_optimal_ec : str
}.

Definition column_mean (df : DataFrame) (c : str) : result float :=
  col <- getitem df c ;; mean col.

(** [len(growth_data.get(school, []))]. *)
Definition specimen_count (growth_data : dict DataFrame) (school : str) : nat :=
  match dict_get growth_data school with
  | Some df => len df
  | None => List.length (@nil cell)
  end.

Fixpoint tab1_loop (items : list (str * DataFrame)) (growth_data : dict DataFrame)
  (summary_rows : list overview_row) (total_count : nat)
  (temps hums : list float)
  : result (list overview_row * nat * list float * list float) :=
  match items with
  | [] => Ok (summary_rows, total_count, temps, hums)
  | (school, df) :: rest =>
      let count := specimen_count growth_data school in
      let total_count := (total_count + count)%nat in
      t <- column_mean df (lit "temperature") ;;
      h <- column_mean df (lit "humidity") ;;
      tab1_loop rest growth_data
        (summary_rows ++ [ {| ov_school := school;
                              ov_ec_target := dict_get ec_conditions school;
                              ov_count := count;
                              ov_color := dict_get school_colors school |} ])
        total_count (temps ++ [t]) (hums ++ [h])
  end.

(** [sum(xs)], starting from the integer 0. *)
Definition py_sum (xs : list float) : float :=
  fold_left fadd xs (Fin 0).

(** [sum(xs)/len(xs)]. *)
Definition sum_over_len (xs : list float) : result float :=
  match xs with
  | [] => Raise ZeroDivisionError
  | _ => Ok (fdiv_nat (py_sum xs) (List.length xs))
  end.

Definition tab1 (env_data growth_data : dict DataFrame) : result overview :=
  acc <- tab1_loop env_data growth_data [] 0%nat [] [] ;;
  let '(summary_rows, total_count, temps, hums) := acc in
  avg_t <- sum_over_len temps ;;
  avg_h <- sum_over_len hums ;;
  Ok {| summary_rows := summary_rows;
        total_count := total_count;
        metric_avg_temperature := avg_t;
        metric_avg_humidity := avg_h;
        metric_optimal_ec := lit "2.0 (하늘고) ⭐" |}.

(* ================================================================== *)
(** ** Tab 2: environment averages *)

Record avg_row : Type := {
  avg_school : str;            (* "학교" *)
  avg_temperature : float;     (* "온도" *)
  avg_humidity : float;        (* "습도" *)
  avg_ph : float;              (* "pH" *)
  avg_ec : float;              (* "EC" *)
  avg_ec_target : option Q     (* "목표 EC" *)
}.

Fixpoint avg_df (items : list (str * DataFrame)) : result (list avg_row) :=
  match items with
  | [] => Ok []
  | (school, df) :: rest =>
      t <- column_mean df (lit "temperature") ;;
      h <- column_mean df (lit "humidity") ;;
      p <- column_mean df (lit "ph") ;;
      e <- column_mean df (lit "ec") ;;
      more <- avg_df rest ;;
      Ok ({| avg_school := school; avg_temperature := t; avg_humidity := h;
             avg_ph := p; avg_ec := e;
             avg_ec_target := dict_get ec_conditions school |} :: more)
  end.

(* ================================================================== *)
(** ** Tab 3: growth results *)

Record summary_row : Type := {
  row_school : str;            (* "학교" *)
  row_ec : option Q;           (* "EC" *)
  mean_fresh_weight : float;   (* "평균 생중량" *)
  mean_leaf_count : float;     (* "평균 잎 수" *)
  mean_shoot_length : float;   (* "평균 지상부 길이" *)
  row_count : nat              (* "개체수" *)
}.

Definition fresh_weight : str := lit "생중량(g)".
Definition leaf_count : str := lit "잎 수(장)".
Definition shoot_length : str := lit "지상부 길이(mm)".
Definition school_column : str := lit "학교".

Fixpoint summary (items : list (str * DataFrame)) : result (list summary_row) :=
  match items with
  | [] => Ok []
  | (school, df) :: rest =>
      w <- column_mean df fresh_weight ;;
      l <- column_mean df leaf_count ;;
      s <- column_mean df shoot_length ;;
      more <- summary rest ;;
      Ok ({| row_school := school;
             row_ec := dict_get ec_conditions school;
             mean_fresh_weight := w;
             mean_leaf_count := l;
             mean_shoot_length := s;
             row_count := len df |} :: more)
  end.

(** [summary_df.loc[summary_df["평균 생중량"].idxmax()]]. *)
Definition best (summary_df : list summary_row) : result summary_row :=
  i <- idxmax (map mean_fresh_weight summary_df) ;;
  loc summary_df i.

(** [pd.concat([df.assign(학교=school) for school, df in growth_data.items()])]. *)
Definition concat_df (growth_data : dict DataFrame) : result DataFrame :=
  concat (map (fun '(school, df) => assign df school_column (Text school))
              growth_data).

Record growth_results : Type := {
  summary_df : list summary_row;
  best_row : summary_row;
  long_table : DataFrame
}.

Definition tab3 (growth_data : dict DataFrame) : result growth_results :=
  sm <- summary growth_data ;;
  b <- best sm ;;
  c <- concat_df growth_data ;;
  Ok {| summary_df := sm; best_row := b; long_table := c |}.

(* ================================================================== *)
(** ** The script *)

Record page : Type := {
  tab1_overview : overview;
  tab2_averages : list avg_row;
  tab3_growth : growth_results
}.

Inductive outcome : Type :=
| Stopped (message : str)
| Rendered (p : page)
| Raised (e : exn).

(** The values computed for the three tabs, in the order of the script.
    The charts drawn from them, among them the time series of a school
    selected in the sidebar, and the download buttons are not part of the
    page value. *)
Definition render (env_data growth_data : dict DataFrame) : result page :=
  o <- tab1 env_data growth_data ;;
  a <- avg_df env_data ;;
  g <- tab3 growth_data ;;
  Ok {| tab1_overview := o; tab2_averages := a; tab3_growth := g |}.

(** One run of the script in a session. *)
Definition script (s : session) (fs : filesystem) : outcome * session :=
  let '(st, s') := load_all s fs in
  match st with
  | Raise e => (Raised e, s')
  | Ok (Stop message) => (Stopped message, s')
  | Ok (Proceed env_data growth_data) =>
      match render env_data growth_data with
      | Ok p => (Rendered p, s')
      | Raise e => (Raised e, s')
      end
  end.

(* ================================================================== *)
(** ** Hangul normalisation *)

(** The conjoining-jamo part of NFC (Unicode Standard, section 3.12):
    canonical decomposition of precomposed syllables followed by
    canonical composition.  On strings of ASCII and modern Hangul this is
    NFC; it serves as a concrete normaliser where one is needed. *)
Module Hangul.

Definition SBase : N := 0xAC00.
Definition LBase : N := 0x1100.
Definition VBase : N := 0x1161.
Definition TBase : N := 0x11A7.
Definition LCount : N := 19.
Definition VCount : N := 21.
Definition TCount : N := 28.
Definition NCount : N := 588.
Definition SCount : N := 11172.

Definition in_range (lo n c : N) : bool := ((lo <=? c) && (c <? lo + n))%N.

Definition decompose1 (c : N) : str :=
  if in_range SBase SCount c then
    let s := (c - SBase)%N in
    let l := (LBase + s / NCount)%N in
    let v := (VBase + (s mod NCount) / TCount)%N in
    let t := (TBase + s mod TCount)%N in
    if (t =? TBase)%N then [l; v] else [l; v; t]
  else [c].

Definition decompose (s : str) : str := flat_map decompose1 s.

Fixpoint compose_from (last : N) (s : str) : str :=
  match s with
  | [] => [last]
  | c :: s' =>
      if in_range LBase LCount last && in_range VBase VCount c then
        compose_from
          (SBase + ((last - LBase) * VCount + (c - VBase)) * TCount)%N s'
      else if in_range SBase SCount last
              && ((last - SBase) mod TCount =? 0)%N
              && in_range (TBase + 1) (TCount - 1) c then
        compose_from (last + (c - TBase))%N s'
      else last :: compose_from c s'
  end.

Definition compose (s : str) : str :=
  match s with
  | [] => []
  | c :: s' => compose_from c s'
  end.

Definition nfc (s : str) : str := compose (decompose s).

End Hangul.

(* ================================================================== *)
(** ** Notions of the specification *)

(** The first underscore-delimited segment of a string. *)
Fixpoint first_segment (s : str) : str :=
  match s with
  | [] => []
  | c :: s' => if (c =? underscore)%N then [] else c :: first_segment s'
  end.

(** The Group identity a file name stands for. *)
Definition group_identity (name : str) : str := first_segment (stem name).

Definition is_csv_of (k : str) (name : str) : bool :=
  str_eqb (suffix name) (lit ".csv") && str_eqb (group_identity name) k.

(** The last entry of a listing that is an environment file of group [k]. *)
Definition last_csv_of (entries : list str) (k : str) : option str :=
  find (is_csv_of k) (rev entries).

(** The values of a series that are not missing. *)
Fixpoint non_missing (vs : list cell) : list Q :=
  match vs with
  | [] => []
  | Float (Fin q) :: vs' => q :: non_missing vs'
  | _ :: vs' => non_missing vs'
  end.

Definition Qsum (qs : list Q) : Q := fold_right Qplus 0 qs.

Definition arithmetic_mean (qs : list Q) : Q :=
  Qsum qs / inject_Z (Z.of_nat (List.length qs)).

(** A series of numbers and missing values only. *)
Definition numeric (vs : list cell) : Prop :=
  Forall (fun c => match c with Float _ => True | Text _ => False end) vs.



Definition float_eq (a b : float) : Prop :=
  match a, b with
  | Fin x, Fin y => x == y
  | NaN, NaN => True
  | _, _ => False
  end.

(** A table whose column [c] exists and holds numbers or missing values. *)
Definition numeric_column (df : DataFrame) (c : str) : Prop :=
  exists col, getitem df c = Ok col /\ numeric col.

(** A growth table with the three measured columns, each numeric. *)
Definition growth_table (df : DataFrame) : Prop :=
  numeric_column df fresh_weight /\
  numeric_column df leaf_count /\
  numeric_column df shoot_length.

(** What the loop of tab 3 puts in the row of one group. *)
Definition row_of (item : str * DataFrame) (r : summary_row) : Prop :=
  row_school r = fst item /\
  row_ec r = dict_get ec_conditions (fst item) /\
  column_mean (snd item) fresh_weight = Ok (mean_fresh_weight r) /\
  column_mean (snd item) leaf_count = Ok (mean_leaf_count r) /\
  column_mean (snd item) shoot_length = Ok (mean_shoot_length r) /\
  row_count r = len (snd item).

(** The position found by [idxmax]: the value there is a number that no
    number of the series exceeds, and every number before it is smaller. *)
Definition first_maximum (vs : list float) (i : nat) (q : Q) : Prop :=
  nth_error vs i = Some (Fin q) /\
  (forall x, In (Fin x) vs -> x <= q) /\
  (forall j x, (j < i)%nat -> nth_error vs j = Some (Fin x) -> x < q).


(** What a scan that started at position [i0] found in [vs]. *)
Definition found_in (vs : list float) (i0 i : nat) (q : Q) : Prop :=
  (i0 <= i)%nat /\ first_maximum vs (i - i0) q.

Definition temperature : str := lit "temperature".
Definition humidity : str := lit "humidity".

(** An environment table with the four averaged columns, each numeric. *)
Definition environment_table (df : DataFrame) : Prop :=
  numeric_column df temperature /\
  numeric_column df humidity /\
  numeric_column df (lit "ph") /\
  numeric_column df (lit "ec").

(** Some group has a specimen whose fresh weight is not missing. *)
Definition some_group_weighed (growth_data : dict DataFrame) : Prop :=
  exists school df col,
    In (school, df) growth_data /\
    getitem df fresh_weight = Ok col /\ non_missing col <> [].

(** The row of the overview table for one group. *)
Definition overview_row_of (growth_data : dict DataFrame)
  (item : str * DataFrame) : overview_row :=
  {| ov_school := fst item;
     ov_ec_target := dict_get ec_conditions (fst item);
     ov_count := specimen_count growth_data (fst item);
     ov_color := dict_get school_colors (fst item) |}.






(* ================================================================== *)
(** ** Sample data *)

Module Sample.

(** An environment table from temperature and humidity readings. *)
Definition env_table (readings : list (Q * Q)) : DataFrame :=
  {| columns := [lit "time"; temperature; humidity; lit "ph"; lit "ec"];
     rows := map (fun '(t, h) =>
               [ (lit "time", Text (lit "2025-01-01"));
                 (temperature, Float (Fin t));
                 (humidity, Float (Fin h));
                 (lit "ph", Float (Fin 6));
                 (lit "ec", Float (Fin 2)) ]) readings |}.

(** A growth table from fresh weights; [None] is an empty cell. *)
Definition growth_sheet (weights : list (option Q)) : DataFrame :=
  {| columns := [fresh_weight; leaf_count; shoot_length];
     rows := map (fun w =>
               [ (fresh_weight,
                  Float (match w with Some q => Fin q | None => NaN end));
                 (leaf_count, Float (Fin 5));
                 (shoot_length, Float (Fin 40)) ]) weights |}.

(** The scenario of the specification: groups A and B with three and
    five specimens of mean fresh weight 1.2 g and 1.8 g. *)
Definition env_AB : dict DataFrame :=
  [ (lit "A", env_table [(20, 50); (22, 54)]);
    (lit "B", env_table [(24, 60)]) ].

Definition growth_AB : dict DataFrame :=
  [ (lit "A", growth_sheet [Some 1; Some (12 # 10); Some (14 # 10)]);
    (lit "B", growth_sheet [Some (16 # 10); Some (17 # 10); Some (18 # 10);
                            Some (19 # 10); Some 2]) ].



(** Group B has environment readings and no sheet. *)
Definition growth_only_A : dict DataFrame :=
  [ (lit "A", growth_sheet [Some 1; Some (12 # 10); Some (14 # 10)]) ].

Definition disk (entries : list str) (sheets : list str)
  (env_data growth_data : dict DataFrame) : filesystem :=
  {| iterdir := Ok entries;
     read_csv := fun path =>
       match dict_get env_data (group_identity path) with
       | Some df => Ok df
       | None => Raise OSError
       end;
     ExcelFile_sheet_names := fun _ => Ok sheets;
     read_excel := fun _ sheet =>
       match dict_get growth_data sheet with
       | Some df => Ok df
       | None => Raise ValueError
       end |}.

Definition disk_AB : filesystem :=
  disk [lit "A_env.csv"; lit "B_env.csv"; lit "growth.xlsx"]
       [lit "A"; lit "B"] env_AB growth_AB.

(** A workbook without any sheet next to an environment file. *)
Definition disk_no_sheet : filesystem :=
  disk [lit "A_env.csv"; lit "growth.xlsx"] [] env_AB [].

(** The directory after the file of group B has been removed. *)
Definition disk_A : filesystem :=
  disk [lit "A_env.csv"; lit "growth.xlsx"] [lit "A"] env_AB growth_AB.

(** Schools of the experiment, the first one with the heavier plants. *)
Definition env_schools : dict DataFrame :=
  [ (lit "송도고", env_table [(20, 50)]);
    (lit "하늘고", env_table [(22, 54)]) ].

Definition growth_schools : dict DataFrame :=
  [ (lit "송도고", growth_sheet [Some 3; Some 5]);
    (lit "하늘고", growth_sheet [Some 1; Some 2]) ].

Definition disk_schools : filesystem :=
  disk [lit "송도고_환경데이터.csv"; lit "하늘고_환경데이터.csv";
        lit "4개교_생육결과데이터.xlsx"]
       [lit "송도고"; lit "하늘고"] env_schools growth_schools.



(** An environment file of 송도고 whose name is in decomposed form, as a
    file system that stores names in NFD lists it, and the same name in
    composed form. *)
Definition songdo_nfc : str := lit "송도고_환경데이터.csv".
Definition songdo_nfd : str := Hangul.decompose songdo_nfc.

End Sample.

(* ================================================================== *)
(** ** Further code of the script *)

(** [schools = ["전체"] + list(env_data.keys())], the options of the
    sidebar selector. *)
Definition all_schools : str := lit "전체".

Definition schools (env_data : dict DataFrame) : list str :=
  all_schools :: keys env_data.

(** [d[k]]. *)
Definition dict_getitem {V} (d : dict V) (k : str) : result V :=
  match dict_get d k with
  | Some v => Ok v
  | None => Raise KeyError
  end.

(** [file_name=f"{school}_환경데이터.csv"] of the download button of tab 2. *)
Definition env_file_name (school : str) : str :=
  school ++ lit "_환경데이터.csv".

(* ================================================================== *)
(** ** Further notions *)

Definition is_csv (name : str) : bool := str_eqb (suffix name) (lit ".csv").
Definition is_xlsx (name : str) : bool := str_eqb (suffix name) (lit ".xlsx").

(** The elements of a list, each at its first occurrence. *)
Fixpoint first_occurrences (l : list str) : list str :=
  match l with
  | [] => []
  | x :: l' => x :: filter (fun y => negb (str_eqb y x)) (first_occurrences l')
  end.

(** A table as the environment loader stores it for a registered file. *)
Definition read_as (fs : filesystem) (item : str * str)
  (loaded : str * DataFrame) : Prop :=
  fst loaded = fst item /\ read_csv fs (snd item) = Ok (snd loaded).

(** A table as the growth loader stores it for a sheet of workbook [x]. *)
Definition sheet_as (fs : filesystem) (x : str) (sheet : str)
  (loaded : str * DataFrame) : Prop :=
  fst loaded = sheet /\ read_excel fs x sheet = Ok (snd loaded).

(** What the loop of tab 2 puts in the row of one group. *)
Definition avg_row_of (item : str * DataFrame) (r : avg_row) : Prop :=
  avg_school r = fst item /\
  column_mean (snd item) temperature = Ok (avg_temperature r) /\
  column_mean (snd item) humidity = Ok (avg_humidity r) /\
  column_mean (snd item) (lit "ph") = Ok (avg_ph r) /\
  column_mean (snd item) (lit "ec") = Ok (avg_ec r) /\
  avg_ec_target r = dict_get ec_conditions (fst item).

(** The readings of column [c] of a table that are not missing. *)
Definition readings (df : DataFrame) (c : str) : list Q :=
  match getitem df c with
  | Ok col => non_missing col
  | Raise _ => []
  end.

(* ================================================================== *)
(** ** Further sample data *)

Module Cases.

(** The directory of groups A and B with an older file of group A, which
    reads as [old], listed first. *)
Definition disk_shadowed (old : result DataFrame) : filesystem :=
  {| iterdir := Ok [lit "A_old.csv"; lit "A_env.csv"; lit "B_env.csv";
                    lit "growth.xlsx"];
     read_csv := fun path =>
       if str_eqb path (lit "A_old.csv") then old
       else read_csv Sample.disk_AB path;
     ExcelFile_sheet_names := ExcelFile_sheet_names Sample.disk_AB;
     read_excel := read_excel Sample.disk_AB |}.

(** The directory of groups A and B in which the file of B cannot be
    read. *)
Definition disk_B_unreadable : filesystem :=
  Sample.disk [lit "A_env.csv"; lit "B_env.csv"; lit "growth.xlsx"]
              [lit "A"; lit "B"]
              [(lit "A", Sample.env_table [(20, 50); (22, 54)])]
              Sample.growth_AB.

(** Two workbooks; the second one has other sheets. *)
Definition disk_two_workbooks : filesystem :=
  {| iterdir := Ok [lit "A_env.csv"; lit "growth.xlsx"; lit "zz.xlsx"];
     read_csv := read_csv Sample.disk_AB;
     ExcelFile_sheet_names := fun x =>
       if str_eqb x (lit "growth.xlsx") then Ok [lit "A"; lit "B"]
       else Ok [lit "Z"];
     read_excel := fun x sheet =>
       if str_eqb x (lit "growth.xlsx") then read_excel Sample.disk_AB x sheet
       else Raise ValueError |}.



(** Sheets with their header and no specimen. *)
Definition growth_all_empty : dict DataFrame :=
  [ (lit "A", Sample.growth_sheet []); (lit "B", Sample.growth_sheet []) ].

(** Group C has a sheet and no environment file. *)
Definition growth_ABC : dict DataFrame :=
  Sample.growth_AB ++ [ (lit "C", Sample.growth_sheet [Some 1; Some 2]) ].

Definition disk_ABC : filesystem :=
  Sample.disk [lit "A_env.csv"; lit "B_env.csv"; lit "growth.xlsx"]
              [lit "A"; lit "B"; lit "C"] Sample.env_AB growth_ABC.

(** The directory before the workbook has been put into it. *)
Definition disk_no_workbook : filesystem :=
  Sample.disk [lit "A_env.csv"; lit "B_env.csv"] [] Sample.env_AB [].

End Cases.

(** Well-formedness of the sample tables, by evaluation. *)
Ltac numeric_column_tac :=
  eexists; split; [vm_compute; reflexivity | repeat constructor].

Ltac growth_table_tac :=
  repeat (constructor; [repeat split; numeric_column_tac|]); try constructor.

(* ================================================================== *)
(** * Properties *)

(** ** The library functions on sample inputs *)

Example lit_hangul : lit "송도고" = [0xC1A1; 0xB3C4; 0xACE0]%N.
Proof. reflexivity. Qed.

Example suffix_samples :
  suffix (lit "a.b.csv") = lit ".csv" /\ suffix (lit ".csv") = [] /\
  suffix (lit "x.csv.") = [] /\ suffix (lit "..csv") = lit ".csv" /\
  suffix (lit "x.CSV") = lit ".CSV" /\ suffix (lit "noext") = [].
Proof. repeat split; reflexivity. Qed.

Example stem_samples :
  stem (lit "a.b.csv") = lit "a.b" /\ stem (lit ".csv") = lit ".csv" /\
  stem (lit "x.csv.") = lit "x.csv." /\ stem (lit "..csv") = lit "." /\
  stem (lit "송도고_환경데이터.csv") = lit "송도고_환경데이터".
Proof. repeat split; reflexivity. Qed.

Example split_samples :
  split (lit "_a__b") underscore = [[]; lit "a"; []; lit "b"] /\
  split [] underscore = [[]] /\
  split (lit "A_env") underscore = [lit "A"; lit "env"].
Proof. repeat split; reflexivity. Qed.

Example rfind_samples :
  rfind (lit "a.b.csv") dot = 3%Z /\ rfind (lit "noext") dot = (-1)%Z /\
  rfind (lit ".csv") dot = 0%Z.
Proof. repeat split; reflexivity. Qed.

Example hangul_samples :
  Hangul.decompose (lit "송도고")
    = [0x1109; 0x1169; 0x11BC; 0x1103; 0x1169; 0x1100; 0x1169]%N /\
  Hangul.nfc (Hangul.decompose (lit "송도고")) = lit "송도고" /\
  List.length Sample.songdo_nfc = 13%nat /\
  List.length Sample.songdo_nfd = 24%nat.
Proof. repeat split; reflexivity. Qed.

Example mean_samples :
  mean [Float (Fin 1); Float NaN; Float (Fin 2)] = Ok (Fin (3 # 2)) /\
  mean [] = Ok NaN /\ mean [Float NaN] = Ok NaN /\
  mean [Float (Fin 1); Text (lit "x")] = Raise TypeError.
Proof. repeat split; reflexivity. Qed.

Example idxmax_samples :
  idxmax [Fin 1; NaN; Fin 2; Fin 2] = Ok 2%nat /\
  idxmax [NaN; NaN] = Raise ValueError /\ idxmax [] = Raise ValueError.
Proof. repeat split; reflexivity. Qed.

(** The scenario of the specification: counts 3 and 5, group B best with
    a mean fresh weight of 1.8 g. *)
Example scenario_AB :
  exists p,
    fst (script fresh_session Sample.disk_AB) = Rendered p /\
    map ov_count (summary_rows (tab1_overview p)) = [3%nat; 5%nat] /\
    total_count (tab1_overview p) = 8%nat /\
    row_school (best_row (tab3_growth p)) = lit "B" /\
    float_eq (mean_fresh_weight (best_row (tab3_growth p))) (Fin (18 # 10)).
Proof.
  eexists. split; [vm_compute; reflexivity|].
  repeat split; vm_compute; reflexivity.
Qed.

(** ** Strings and dicts *)

Lemma str_eqb_eq (a b : str) : str_eqb a b = true <-> a = b.
Proof.
  revert b; induction a as [|x a IH]; intros [|y b]; simpl;
    try (split; [discriminate | discriminate]); try tauto.
  rewrite andb_true_iff, N.eqb_eq, IH.
  split; [intros [-> ->]; reflexivity | intros H; inversion H; auto].
Qed.

Lemma str_eqb_refl (a : str) : str_eqb a a = true.
Proof. apply str_eqb_eq; reflexivity. Qed.

Lemma str_eqb_neq (a b : str) : str_eqb a b = false <-> a <> b.
Proof.
  rewrite <- str_eqb_eq. destruct (str_eqb a b); split; congruence.
Qed.

Lemma str_eqb_sym (a b : str) : str_eqb a b = str_eqb b a.
Proof.
  destruct (str_eqb a b) eqn:E.
  - apply str_eqb_eq in E; subst; symmetry; apply str_eqb_refl.
  - symmetry; apply str_eqb_neq; apply str_eqb_neq in E; congruence.
Qed.

Lemma dict_get_set {V} (d : dict V) (k k' : str) (v : V) :
  dict_get (dict_set d k v) k' =
  if str_eqb k k' then Some v else dict_get d k'.
Proof.
  induction d as [|[k0 v0] d IH]; simpl.
  - reflexivity.
  - destruct (str_eqb k0 k) eqn:E0; simpl.
    + apply str_eqb_eq in E0; subst k0.
      destruct (str_eqb k k'); reflexivity.
    + destruct (str_eqb k0 k') eqn:E1.
      * apply str_eqb_eq in E1; subst k0.
        rewrite str_eqb_sym, E0; reflexivity.
      * exact IH.
Qed.

Lemma dict_get_none_keys {V} (d : dict V) (k : str) :
  dict_get d k = None <-> ~ In k (keys d).
Proof.
  induction d as [|[k0 v0] d IH]; simpl.
  - tauto.
  - destruct (str_eqb k0 k) eqn:E.
    + apply str_eqb_eq in E; subst. split; [discriminate | intros H; exfalso; apply H; left; reflexivity].
    + apply str_eqb_neq in E. rewrite IH. tauto.
Qed.

(** ** The directory scan *)

Lemma find_app {A} (p : A -> bool) (l1 l2 : list A) :
  find p (l1 ++ l2) =
  match find p l1 with Some x => Some x | None => find p l2 end.
Proof.
  induction l1 as [|x l1 IH]; simpl; [reflexivity|].
  destruct (p x); [reflexivity | exact IH].
Qed.

(** [split(...)[0]] is the first segment and never raises. *)
Lemma split_first_segment (s : str) :
  getitem0 (split s underscore) = Ok (first_segment s).
Proof.
  induction s as [|c s IH]; simpl.
  - reflexivity.
  - destruct (c =? underscore)%N; simpl.
    + reflexivity.
    + destruct (split s underscore) as [|w ws]; simpl in *.
      * discriminate.
      * inversion IH; reflexivity.
Qed.

Lemma scan_school_files_spec (entries : list str) (acc : dict str) :
  exists school_files,
    scan_school_files entries acc = Ok school_files /\
    forall k, dict_get school_files k =
              match last_csv_of entries k with
              | Some f => Some f
              | None => dict_get acc k
              end.
Proof.
  revert acc; induction entries as [|f rest IH]; intros acc; simpl.
  - exists acc; split; reflexivity.
  - unfold last_csv_of; simpl rev.
    destruct (str_eqb (suffix f) (lit ".csv")) eqn:Esuf.
    + rewrite split_first_segment; simpl.
      destruct (IH (dict_set acc (first_segment (stem f)) f)) as (d & Hd & Hk).
      exists d; split; [exact Hd|].
      intros k; rewrite Hk. unfold last_csv_of.
      rewrite find_app.
      destruct (find (is_csv_of k) (rev rest)); [reflexivity|].
      rewrite dict_get_set; simpl.
      unfold is_csv_of at 1; rewrite Esuf; simpl.
      unfold group_identity.
      destruct (str_eqb (first_segment (stem f)) k); reflexivity.
    + destruct (IH acc) as (d & Hd & Hk).
      exists d; split; [exact Hd|].
      intros k; rewrite Hk. unfold last_csv_of.
      rewrite find_app.
      destruct (find (is_csv_of k) (rev rest)); [reflexivity|].
      simpl. unfold is_csv_of; rewrite Esuf; reflexivity.
Qed.

(** C4.  For every directory listing the scan of [load_environment_data]
    returns a mapping in which every entry with the [.csv] suffix has its
    key, the first underscore-delimited segment of the stem, registered,
    and each key holds the last entry of the listing with that key. *)
Theorem locator_registers_last_csv (entries : list str) :
  exists school_files,
    scan_school_files entries [] = Ok school_files /\
    (forall k, dict_get school_files k = last_csv_of entries k) /\
    (forall f, In f entries -> suffix f = lit ".csv" ->
       exists g, dict_get school_files (group_identity f) = Some g /\
                 suffix g = lit ".csv" /\
                 group_identity g = group_identity f).
Proof.
  destruct (scan_school_files_spec entries []) as (d & Hd & Hk).
  assert (Hall : forall k, dict_get d k = last_csv_of entries k).
  { intros k; rewrite Hk; destruct (last_csv_of entries k); reflexivity. }
  exists d; split; [exact Hd|]; split; [exact Hall|].
  intros f Hin Hsuf. rewrite Hall. unfold last_csv_of.
  destruct (find (is_csv_of (group_identity f)) (rev entries)) as [g|] eqn:Hfind.
  - exists g; split; [reflexivity|].
    apply find_some in Hfind; destruct Hfind as [_ Hg].
    unfold is_csv_of in Hg; apply andb_true_iff in Hg; destruct Hg as [H1 H2].
    apply str_eqb_eq in H1, H2; auto.
  - exfalso.
    assert (Hf : is_csv_of (group_identity f) f = true).
    { unfold is_csv_of; rewrite Hsuf, !str_eqb_refl; reflexivity. }
    rewrite (find_none _ _ Hfind f) in Hf; [discriminate|].
    apply in_rev in Hin; exact Hin.
Qed.

(** ** Means *)

Lemma nansum_spec (vs : list cell) (s : Q) :
  nansum vs = Ok s -> numeric vs /\ s == Qsum (non_missing vs).
Proof.
  revert s; induction vs as [|c vs IH]; simpl; intros s H.
  - inversion H; split; [constructor | reflexivity].
  - destruct c as [[q|]|t].
    + destruct (nansum vs) as [s'|e]; simpl in H; [|discriminate].
      inversion H; subst s. destruct (IH s' eq_refl) as [Hn Hs].
      split; [constructor; [exact I | exact Hn]|].
      simpl. rewrite Hs. reflexivity.
    + destruct (IH s H) as [Hn Hs].
      split; [constructor; [exact I | exact Hn] | exact Hs].
    + discriminate.
Qed.

Lemma nansum_numeric (vs : list cell) :
  numeric vs -> exists s, nansum vs = Ok s.
Proof.
  induction 1 as [|c vs Hc _ IH]; simpl.
  - eexists; reflexivity.
  - destruct c as [[q|]|t]; [| exact IH | contradiction].
    destruct IH as [s ->]; simpl; eexists; reflexivity.
Qed.

Lemma count_notna_numeric (vs : list cell) :
  numeric vs -> count_notna vs = List.length (non_missing vs).
Proof.
  induction 1 as [|c vs Hc _ IH]; simpl.
  - reflexivity.
  - destruct c as [[q|]|t]; simpl; [f_equal; exact IH | exact IH | contradiction].
Qed.

(** [Series.mean()] is the arithmetic mean of the values that are not
    missing, and NaN when there is none. *)
Lemma mean_spec (vs : list cell) (m : float) :
  mean vs = Ok m ->
  numeric vs /\
  (non_missing vs <> [] ->
     exists q, m = Fin q /\ q == arithmetic_mean (non_missing vs)) /\
  (non_missing vs = [] -> m = NaN).
Proof.
  unfold mean; intros H.
  destruct (nansum vs) as [s|e] eqn:Hs; simpl in H; [|discriminate].
  destruct (nansum_spec _ Hs) as [Hn Hsum].
  rewrite (count_notna_numeric Hn) in H.
  split; [exact Hn|]; split; intros Hnm.
  - destruct (non_missing vs) as [|x xs] eqn:E; [congruence|].
    simpl in H. inversion H; subst m.
    eexists; split; [reflexivity|].
    unfold arithmetic_mean. rewrite Hsum. reflexivity.
  - rewrite Hnm in H; simpl in H. inversion H; reflexivity.
Qed.

Lemma mean_numeric (vs : list cell) :
  numeric vs -> exists m, mean vs = Ok m.
Proof.
  intros Hn. unfold mean.
  destruct (nansum_numeric Hn) as [s ->]; simpl.
  destruct (0 <? count_notna vs)%nat; eexists; reflexivity.
Qed.

Lemma column_mean_numeric (df : DataFrame) (c : str) :
  numeric_column df c -> exists m, column_mean df c = Ok m.
Proof.
  intros (col & Hc & Hn). unfold column_mean. rewrite Hc; simpl.
  apply mean_numeric; exact Hn.
Qed.

Lemma column_mean_spec (df : DataFrame) (c : str) (m : float) :
  column_mean df c = Ok m ->
  exists col, getitem df c = Ok col /\ mean col = Ok m.
Proof.
  unfold column_mean; intros H.
  destruct (getitem df c) as [col|e]; simpl in H; [|discriminate].
  exists col; split; [reflexivity | exact H].
Qed.

(** ** The growth summary *)

Lemma summary_rows_of (growth_data : dict DataFrame) (sm : list summary_row) :
  summary growth_data = Ok sm -> Forall2 row_of growth_data sm.
Proof.
  revert sm; induction growth_data as [|[school df] rest IH]; simpl; intros sm H.
  - inversion H; constructor.
  - destruct (column_mean df fresh_weight) as [w|] eqn:Hw; simpl in H; [|discriminate].
    destruct (column_mean df leaf_count) as [l|] eqn:Hl; simpl in H; [|discriminate].
    destruct (column_mean df shoot_length) as [s|] eqn:Hs; simpl in H; [|discriminate].
    destruct (summary rest) as [more|] eqn:Hm; simpl in H; [|discriminate].
    inversion H; subst sm. constructor; [|apply IH; reflexivity].
    unfold row_of; simpl; repeat split; assumption.
Qed.

Lemma summary_total (growth_data : dict DataFrame) :
  Forall (fun item => growth_table (snd item)) growth_data ->
  exists sm, summary growth_data = Ok sm.
Proof.
  induction 1 as [|[school df] rest (Hw & Hl & Hs) _ IH]; simpl.
  - eexists; reflexivity.
  - simpl in Hw, Hl, Hs.
    destruct (column_mean_numeric Hw) as [w ->].
    destruct (column_mean_numeric Hl) as [l ->].
    destruct (column_mean_numeric Hs) as [s ->].
    destruct IH as [more ->]. simpl. eexists; reflexivity.
Qed.


(** ** Selection of the maximum *)

Lemma argmax_scan_spec (vs : list float) :
  forall (i0 : nat) (acc : option (nat * Q)),
  match acc with
  | None =>
      match argmax_scan vs i0 None with
      | None => Forall (fun v => v = NaN) vs
      | Some (i, q) => found_in vs i0 i q
      end
  | Some (ib, b) =>
      exists i q, argmax_scan vs i0 (Some (ib, b)) = Some (i, q) /\
        ((i = ib /\ q = b /\ forall x, In (Fin x) vs -> x <= b) \/
         (b < q /\ found_in vs i0 i q))
  end.
Proof.
  induction vs as [|v vs IH]; intros i0 [[ib b]|]; simpl.
  - exists ib, b; split; [reflexivity|]; left; repeat split; tauto.
  - constructor.
  - destruct v as [x|].
    + destruct (Qlt_le_dec b x) as [Hlt|Hle].
      * destruct (IH (S i0) (Some (i0, x))) as (i & q & Hr & [(Hi & Hq & Hall)|(Hbq & Hle' & Hnth & Hall & Hfirst)]).
        -- exists i, q; split; [exact Hr|]; right; subst i q.
           split; [exact Hlt|]. split; [lia|].
           replace (i0 - i0)%nat with 0%nat by lia.
           split; [reflexivity|]; split.
           ++ intros y [Hy|Hy]; [inversion Hy; subst; lra | apply Hall; exact Hy].
           ++ intros j y Hj; lia.
        -- exists i, q; split; [exact Hr|]; right.
           split; [lra|]. split; [lia|].
           replace (i - i0)%nat with (S (i - S i0)) by lia.
           split; [exact Hnth|]; split.
           ++ intros y [Hy|Hy]; [inversion Hy; subst; lra | apply Hall; exact Hy].
           ++ intros [|j] y Hj Hy; simpl in Hy.
              ** inversion Hy; subst; lra.
              ** apply (Hfirst j); [lia | exact Hy].
      * destruct (IH (S i0) (Some (ib, b))) as (i & q & Hr & [(Hi & Hq & Hall)|(Hbq & Hle' & Hnth & Hall & Hfirst)]).
        -- exists i, q; split; [exact Hr|]; left.
           repeat split; try assumption.
           intros y [Hy|Hy]; [inversion Hy; subst; lra | apply Hall; exact Hy].
        -- exists i, q; split; [exact Hr|]; right.
           split; [exact Hbq|]. split; [lia|].
           replace (i - i0)%nat with (S (i - S i0)) by lia.
           split; [exact Hnth|]; split.
           ++ intros y [Hy|Hy]; [inversion Hy; subst; lra | apply Hall; exact Hy].
           ++ intros [|j] y Hj Hy; simpl in Hy.
              ** inversion Hy; subst; lra.
              ** apply (Hfirst j); [lia | exact Hy].
    + destruct (IH (S i0) (Some (ib, b))) as (i & q & Hr & [(Hi & Hq & Hall)|(Hbq & Hle' & Hnth & Hall & Hfirst)]).
      * exists i, q; split; [exact Hr|]; left.
        repeat split; try assumption.
        intros y [Hy|Hy]; [discriminate | apply Hall; exact Hy].
      * exists i, q; split; [exact Hr|]; right.
        split; [exact Hbq|]. split; [lia|].
        replace (i - i0)%nat with (S (i - S i0)) by lia.
        split; [exact Hnth|]; split.
        -- intros y [Hy|Hy]; [discriminate | apply Hall; exact Hy].
        -- intros [|j] y Hj Hy; simpl in Hy; [discriminate|].
           apply (Hfirst j); [lia | exact Hy].
  - destruct v as [x|].
    + destruct (IH (S i0) (Some (i0, x))) as (i & q & Hr & [(Hi & Hq & Hall)|(Hbq & Hle' & Hnth & Hall & Hfirst)]);
        rewrite Hr.
      * subst i q. split; [lia|].
        replace (i0 - i0)%nat with 0%nat by lia.
        split; [reflexivity|]; split.
        -- intros y [Hy|Hy]; [inversion Hy; subst; lra | apply Hall; exact Hy].
        -- intros j y Hj; lia.
      * split; [lia|].
        replace (i - i0)%nat with (S (i - S i0)) by lia.
        split; [exact Hnth|]; split.
        -- intros y [Hy|Hy]; [inversion Hy; subst; lra | apply Hall; exact Hy].
        -- intros [|j] y Hj Hy; simpl in Hy.
           ++ inversion Hy; subst; lra.
           ++ apply (Hfirst j); [lia | exact Hy].
    + specialize (IH (S i0) None); simpl in IH.
      destruct (argmax_scan vs (S i0) None) as [[i q]|].
      * destruct IH as (Hle' & Hnth & Hall & Hfirst).
        split; [lia|].
        replace (i - i0)%nat with (S (i - S i0)) by lia.
        split; [exact Hnth|]; split.
        -- intros y [Hy|Hy]; [discriminate | apply Hall; exact Hy].
        -- intros [|j] y Hj Hy; simpl in Hy; [discriminate|].
           apply (Hfirst j); [lia | exact Hy].
      * constructor; [reflexivity | exact IH].
Qed.

(** [idxmax] returns the first maximum of the numbers of the series. *)
Lemma idxmax_first_maximum (vs : list float) (i : nat) :
  idxmax vs = Ok i -> exists q, first_maximum vs i q.
Proof.
  unfold idxmax; intros H.
  pose proof (argmax_scan_spec vs 0 None) as Hs; simpl in Hs.
  destruct (argmax_scan vs 0 None) as [[i' q]|]; [|discriminate].
  inversion H; subst i'. destruct Hs as [_ Hs].
  rewrite Nat.sub_0_r in Hs. exists q; exact Hs.
Qed.

(** It raises only on a series without any number. *)
Lemma idxmax_total (vs : list float) (x : Q) :
  In (Fin x) vs -> exists i, idxmax vs = Ok i.
Proof.
  unfold idxmax; intros Hin.
  pose proof (argmax_scan_spec vs 0 None) as Hs; simpl in Hs.
  destruct (argmax_scan vs 0 None) as [[i q]|].
  - exists i; reflexivity.
  - rewrite Forall_forall in Hs. specialize (Hs _ Hin); discriminate.
Qed.

Lemma Forall2_in_right {A B} (R : A -> B -> Prop) (l : list A) (l' : list B) (y : B) :
  Forall2 R l l' -> In y l' -> exists x, In x l /\ R x y.
Proof.
  induction 1 as [|a b l l' Hab _ IH]; simpl; intros Hin.
  - contradiction.
  - destruct Hin as [<-|Hin].
    + exists a; split; [left; reflexivity | exact Hab].
    + destruct (IH Hin) as (x & Hx & Hr). exists x; split; [right; exact Hx | exact Hr].
Qed.



(** ** The long-form table *)

Lemma existsb_str_in (c : str) (l : list str) :
  existsb (str_eqb c) l = true <-> In c l.
Proof.
  rewrite existsb_exists. split.
  - intros (x & Hx & He). apply str_eqb_eq in He; subst; exact Hx.
  - intros H. exists c; split; [exact H | apply str_eqb_refl].
Qed.

Lemma union_columns_in (cs acc : list str) (c : str) :
  In c acc \/ In c cs -> In c (union_columns acc cs).
Proof.
  unfold union_columns. revert acc.
  induction cs as [|x cs IH]; simpl; intros acc H.
  - destruct H as [H|[]]; exact H.
  - apply IH. destruct H as [H|[H|H]].
    + left. destruct (existsb (str_eqb x) acc); [exact H | apply in_or_app; left; exact H].
    + subst x. left. destruct (existsb (str_eqb c) acc) eqn:E.
      * apply existsb_str_in; exact E.
      * apply in_or_app; right; left; reflexivity.
    + right; exact H.
Qed.

Lemma concat_columns_in (objs : list DataFrame) (acc : list str) (c : str) :
  In c acc \/ (exists df, In df objs /\ In c (columns df)) ->
  In c (fold_left (fun a df => union_columns a (columns df)) objs acc).
Proof.
  revert acc; induction objs as [|df objs IH]; simpl; intros acc H.
  - destruct H as [H|(df & [] & _)]; exact H.
  - apply IH. destruct H as [H|(df' & [Hd|Hd] & Hc)].
    + left; apply union_columns_in; left; exact H.
    + subst df'. left; apply union_columns_in; right; exact Hc.
    + right; exists df'; split; assumption.
Qed.

Lemma assign_has_column (df : DataFrame) (name : str) (v : cell) :
  In name (columns (assign df name v)).
Proof.
  unfold assign; simpl. destruct (has_column df name) eqn:E.
  - apply existsb_str_in; exact E.
  - apply in_or_app; right; left; reflexivity.
Qed.

Lemma row_at_set (r : dict cell) (name : str) (v : cell) :
  row_at (dict_set r name v) name = v.
Proof.
  unfold row_at. rewrite dict_get_set, str_eqb_refl. reflexivity.
Qed.

Lemma concat_df_spec (growth_data : dict DataFrame) :
  growth_data <> [] ->
  exists c,
    concat_df growth_data = Ok c /\
    rows c = flat_map (fun item =>
               map (fun r => dict_set r school_column (Text (fst item)))
                   (rows (snd item))) growth_data /\
    len c = list_sum (map (fun item => len (snd item)) growth_data) /\
    getitem c school_column =
      Ok (flat_map (fun item => repeat (Text (fst item)) (len (snd item)))
                   growth_data).
Proof.
  intros Hne. unfold concat_df, concat.
  destruct growth_data as [|[school0 df0] rest] eqn:E; [congruence|].
  rewrite <- E. clear Hne.
  destruct (map _ growth_data) as [|o objs] eqn:Em.
  { rewrite E in Em; discriminate. }
  rewrite <- Em. eexists; split; [reflexivity|].
  assert (Hrows : flat_map rows
            (map (fun '(school, df) => assign df school_column (Text school)) growth_data)
          = flat_map (fun item =>
               map (fun r => dict_set r school_column (Text (fst item)))
                   (rows (snd item))) growth_data).
  { clear. induction growth_data as [|[school df] gd IH]; simpl; [reflexivity|].
    rewrite IH; reflexivity. }
  split; [exact Hrows|]. split.
  - unfold len; simpl. rewrite Hrows. clear.
    induction growth_data as [|[school df] gd IH]; simpl; [reflexivity|].
    rewrite length_app, length_map, IH. reflexivity.
  - unfold getitem, has_column; cbn [columns rows].
    assert (Hc : existsb (str_eqb school_column)
              (fold_left (fun a df => union_columns a (columns df))
                 (map (fun '(school, df) => assign df school_column (Text school))
                      growth_data) []) = true).
    { apply existsb_str_in. apply concat_columns_in. right.
      exists (assign df0 school_column (Text school0)). split.
      - rewrite E; left; reflexivity.
      - apply assign_has_column. }
    rewrite Hc. f_equal. rewrite Hrows. clear.
    induction growth_data as [|[school df] gd IH]; simpl; [reflexivity|].
    rewrite map_app, IH. f_equal.
    rewrite map_map. unfold len.
    induction (rows df) as [|r rs IHr]; simpl; [reflexivity|].
    rewrite row_at_set, IHr. reflexivity.
Qed.

(** C7.  For every growth mapping that reaches the concatenation (it is
    not empty after the start-up check) the long-form table exists, its
    rows are the rows of the per-group tables in order, each with the
    school column set to the key of its table; so it has as many rows as
    the tables together, and the school column reads, table after table,
    the key of the table repeated once per row. *)
Theorem concat_df_rows_and_tags (growth_data : dict DataFrame) :
  growth_data <> [] ->
  exists c,
    concat_df growth_data = Ok c /\
    rows c = flat_map (fun item =>
               map (fun r => dict_set r school_column (Text (fst item)))
                   (rows (snd item))) growth_data /\
    len c = list_sum (map (fun item => len (snd item)) growth_data) /\
    getitem c school_column =
      Ok (flat_map (fun item => repeat (Text (fst item)) (len (snd item)))
                   growth_data).
Proof. exact (@concat_df_spec growth_data). Qed.

(** ** Start-up *)

Lemma dict_set_nonempty {V} (d : dict V) (k : str) (v : V) :
  dict_set d k v <> [].
Proof.
  destruct d as [|[k0 v0] d]; simpl; [discriminate|].
  destruct (str_eqb k0 k); discriminate.
Qed.

Lemma read_school_files_empty (fs : filesystem) (items : list (str * str)) :
  forall acc env_data,
  read_school_files fs items acc = Ok env_data ->
  (env_data = [] <-> items = [] /\ acc = []).
Proof.
  induction items as [|[school path] rest IH]; simpl; intros acc env_data H.
  - inversion H; subst. tauto.
  - destruct (read_csv fs path) as [df|e]; simpl in H; [|discriminate].
    apply IH in H. rewrite H. split.
    + intros [_ Hs]. exfalso; exact (dict_set_nonempty _ _ _ Hs).
    + intros [Hd _]; discriminate.
Qed.

Lemma read_sheets_empty (fs : filesystem) (x : str) (sheets : list str) :
  forall acc growth_data,
  read_sheets fs x sheets acc = Ok growth_data ->
  (growth_data = [] <-> sheets = [] /\ acc = []).
Proof.
  induction sheets as [|sheet rest IH]; simpl; intros acc growth_data H.
  - inversion H; subst. tauto.
  - destruct (read_excel fs x sheet) as [df|e]; simpl in H; [|discriminate].
    apply IH in H. rewrite H. split.
    + intros [_ Hs]. exfalso; exact (dict_set_nonempty _ _ _ Hs).
    + intros [Hd _]; discriminate.
Qed.

(** In a fresh session the script runs both loader bodies. *)
Lemma load_all_fresh (fs : filesystem) (env_data : dict DataFrame)
  (growth_data : option (dict DataFrame)) :
  load_environment_data_body fs = Ok env_data ->
  load_growth_data_body fs = Ok growth_data ->
  load_all fresh_session fs =
    (Ok (startup_check env_data growth_data),
     {| env_entry := Some env_data; growth_entry := Some growth_data;
        body_runs := 2 |}).
Proof.
  intros He Hg. unfold load_all, load_environment_data, load_growth_data.
  simpl. rewrite He; simpl. rewrite Hg; reflexivity.
Qed.

Lemma startup_check_stop (env_data : dict DataFrame)
  (growth_data : option (dict DataFrame)) :
  startup_check env_data growth_data = Stop no_data_message <->
  env_data = [] \/ growth_data = None \/ growth_data = Some [].
Proof.
  unfold startup_check.
  destruct env_data as [|e env]; simpl.
  - split; [intros _; left; reflexivity | reflexivity].
  - destruct growth_data as [[|g gd]|]; simpl.
    + split; [intros _; right; right; reflexivity | reflexivity].
    + split; [discriminate|].
      intros [H|[H|H]]; discriminate.
    + split; [intros _; right; left; reflexivity | reflexivity].
Qed.

Lemma startup_check_proceed (env_data : dict DataFrame)
  (growth_data : option (dict DataFrame)) :
  ~ (env_data = [] \/ growth_data = None \/ growth_data = Some []) ->
  exists g, growth_data = Some g /\
            startup_check env_data growth_data = Proceed env_data g.
Proof.
  unfold startup_check. intros H.
  destruct env_data as [|e env]; [exfalso; apply H; left; reflexivity|].
  destruct growth_data as [[|g gd]|]; simpl.
  - exfalso; apply H; right; right; reflexivity.
  - eexists; split; reflexivity.
  - exfalso; apply H; right; left; reflexivity.
Qed.

Lemma script_stopped (s : session) (fs : filesystem) (message : str) :
  fst (script s fs) = Stopped message <->
  fst (load_all s fs) = Ok (Stop message).
Proof.
  unfold script. destruct (load_all s fs) as [[[m|env g]|e] s']; simpl.
  - split; intros H; inversion H; reflexivity.
  - destruct (render env g); simpl; split; discriminate.
  - split; discriminate.
Qed.

Lemma startup_spec (fs : filesystem) (entries : list str)
  (env_data : dict DataFrame) (growth_data : option (dict DataFrame)) :
  iterdir fs = Ok entries ->
  load_environment_data_body fs = Ok env_data ->
  load_growth_data_body fs = Ok growth_data ->
  exists school_files,
    scan_school_files entries [] = Ok school_files /\
    let no_data :=
      school_files = [] \/ first_xlsx entries = None \/
      (exists x, first_xlsx entries = Some x /\
                 ExcelFile_sheet_names fs x = Ok []) in
    (fst (script fresh_session fs) = Stopped no_data_message <-> no_data) /\
    (~ no_data ->
       exists g, growth_data = Some g /\
         fst (load_all fresh_session fs) = Ok (Proceed env_data g)) /\
    (growth_data = None <-> first_xlsx entries = None) /\
    (forall message, fst (script fresh_session fs) = Stopped message ->
       startup_check env_data growth_data = Stop message).
Proof.
  intros Hit He Hg.
  destruct (scan_school_files_spec entries []) as (school_files & Hscan & _).
  exists school_files; split; [exact Hscan|].
  assert (Henv : env_data = [] <-> school_files = []).
  { unfold load_environment_data_body in He. rewrite Hit in He; simpl in He.
    rewrite Hscan in He; simpl in He.
    apply read_school_files_empty in He. tauto. }
  assert (Hnone : growth_data = None <-> first_xlsx entries = None).
  { unfold load_growth_data_body in Hg. rewrite Hit in Hg; simpl in Hg.
    destruct (first_xlsx entries) as [x|].
    - destruct (ExcelFile_sheet_names fs x) as [sh|]; simpl in Hg; [|discriminate].
      destruct (read_sheets fs x sh []); simpl in Hg; [|discriminate].
      inversion Hg; split; discriminate.
    - inversion Hg; tauto. }
  assert (Hempty : growth_data = Some [] <->
            exists x, first_xlsx entries = Some x /\
                      ExcelFile_sheet_names fs x = Ok []).
  { unfold load_growth_data_body in Hg. rewrite Hit in Hg; simpl in Hg.
    destruct (first_xlsx entries) as [x|].
    - destruct (ExcelFile_sheet_names fs x) as [sh|] eqn:Hsh; simpl in Hg; [|discriminate].
      destruct (read_sheets fs x sh []) as [gd|] eqn:Hr; simpl in Hg; [|discriminate].
      inversion Hg; subst growth_data.
      apply read_sheets_empty in Hr. split.
      + intros H; inversion H; subst gd. exists x; split; [reflexivity|].
        rewrite Hsh. f_equal. apply (proj1 Hr eq_refl).
      + intros (x' & Hx & Hs). inversion Hx; subst x'.
        rewrite Hs in Hsh. inversion Hsh; subst sh.
        f_equal. apply (proj2 Hr). split; reflexivity.
    - inversion Hg; split; [discriminate|].
      intros (x & Hx & _); discriminate. }
  assert (Hcond : env_data = [] \/ growth_data = None \/ growth_data = Some [] <->
            school_files = [] \/ first_xlsx entries = None \/
            (exists x, first_xlsx entries = Some x /\
                       ExcelFile_sheet_names fs x = Ok [])) by tauto.
  cbv zeta. repeat split.
  - intros H. apply script_stopped in H.
    rewrite (load_all_fresh _ He Hg) in H; simpl in H. inversion H as [H1].
    apply Hcond, startup_check_stop; exact H1.
  - intros H. apply script_stopped.
    rewrite (load_all_fresh _ He Hg); simpl. f_equal.
    apply startup_check_stop, Hcond; exact H.
  - intros Hno. rewrite (load_all_fresh _ He Hg); simpl.
    destruct (@startup_check_proceed env_data growth_data) as (g & Hgd & Hp).
    { rewrite Hcond; exact Hno. }
    exists g; split; [exact Hgd | f_equal; exact Hp].
  - apply Hnone.
  - apply Hnone.
  - intros message H. apply script_stopped in H.
    rewrite (load_all_fresh _ He Hg) in H; simpl in H. inversion H; reflexivity.
Qed.

(** C3 (amended).  When both loader bodies return, a first run stops with
    the error message exactly when the environment-file mapping of the
    scan is empty, or no workbook is found, or the workbook found has no
    sheet; otherwise the run goes on past the check with both mappings.
    The growth loader returns [None] exactly when no entry has the
    workbook suffix, and the stop is decided by the top-level check. *)
Theorem startup_stops_iff (fs : filesystem) (entries : list str)
  (env_data : dict DataFrame) (growth_data : option (dict DataFrame)) :
  iterdir fs = Ok entries ->
  load_environment_data_body fs = Ok env_data ->
  load_growth_data_body fs = Ok growth_data ->
  exists school_files,
    scan_school_files entries [] = Ok school_files /\
    let no_data :=
      school_files = [] \/ first_xlsx entries = None \/
      (exists x, first_xlsx entries = Some x /\
                 ExcelFile_sheet_names fs x = Ok []) in
    (fst (script fresh_session fs) = Stopped no_data_message <-> no_data) /\
    (~ no_data ->
       exists g, growth_data = Some g /\
         fst (load_all fresh_session fs) = Ok (Proceed env_data g)) /\
    (growth_data = None <-> first_xlsx entries = None) /\
    (forall message, fst (script fresh_session fs) = Stopped message ->
       startup_check env_data growth_data = Stop message).
Proof. exact (@startup_spec fs entries env_data growth_data). Qed.

(** With a workbook that has a sheet, the stop is decided by the two
    conditions on the directory alone. *)
Lemma startup_stops_iff_with_sheets (fs : filesystem) (entries : list str)
  (env_data : dict DataFrame) (growth_data : option (dict DataFrame)) :
  iterdir fs = Ok entries ->
  load_environment_data_body fs = Ok env_data ->
  load_growth_data_body fs = Ok growth_data ->
  (forall x, first_xlsx entries = Some x ->
             ExcelFile_sheet_names fs x <> Ok []) ->
  exists school_files,
    scan_school_files entries [] = Ok school_files /\
    (fst (script fresh_session fs) = Stopped no_data_message <->
     school_files = [] \/ first_xlsx entries = None).
Proof.
  intros Hit He Hg Hsheets.
  destruct (@startup_spec fs entries env_data growth_data Hit He Hg)
    as (sf & Hscan & Hiff & _).
  exists sf; split; [exact Hscan|]. rewrite Hiff.
  split.
  - intros [H|[H|(x & Hx & Hs)]]; [left; exact H | right; exact H |].
    exfalso; exact (Hsheets x Hx Hs).
  - intros [H|H]; [left; exact H | right; left; exact H].
Qed.

(** ** The overview tab *)

Lemma tab1_loop_ok (growth_data : dict DataFrame) (items : list (str * DataFrame)) :
  forall rows0 total0 temps0 hums0 res,
  tab1_loop items growth_data rows0 total0 temps0 hums0 = Ok res ->
  exists ts hs,
    Forall2 (fun item t => column_mean (snd item) temperature = Ok t) items ts /\
    Forall2 (fun item h => column_mean (snd item) humidity = Ok h) items hs /\
    res = (rows0 ++ map (overview_row_of growth_data) items,
           (total0 + list_sum (map (fun item => specimen_count growth_data (fst item))
                                   items))%nat,
           temps0 ++ ts, hums0 ++ hs).
Proof.
  induction items as [|[school df] rest IH]; intros rows0 total0 temps0 hums0 res H.
  - simpl in H. inversion H; subst res. exists [], []; repeat split; try constructor.
    simpl. rewrite !app_nil_r, Nat.add_0_r. reflexivity.
  - cbn [tab1_loop] in H.
    destruct (column_mean df (lit "temperature")) as [t|] eqn:Ht; [|discriminate].
    destruct (column_mean df (lit "humidity")) as [h|] eqn:Hh; [|discriminate].
    cbn [bind] in H. apply IH in H. destruct H as (ts & hs & Hts & Hhs & Hres).
    exists (t :: ts), (h :: hs). split; [constructor; [exact Ht | exact Hts]|].
    split; [constructor; [exact Hh | exact Hhs]|].
    rewrite Hres. cbn [map list_sum fold_right fst].
    rewrite <- !app_assoc, Nat.add_assoc. reflexivity.
Qed.

Lemma tab1_loop_total (growth_data : dict DataFrame) (items : list (str * DataFrame)) :
  Forall (fun item => numeric_column (snd item) temperature /\
                      numeric_column (snd item) humidity) items ->
  forall rows0 total0 temps0 hums0,
  exists res, tab1_loop items growth_data rows0 total0 temps0 hums0 = Ok res.
Proof.
  induction 1 as [|[school df] rest [Ht Hh] _ IH]; intros rows0 total0 temps0 hums0.
  - eexists; reflexivity.
  - cbn [tab1_loop]. cbn [snd] in Ht, Hh.
    destruct (column_mean_numeric Ht) as [t Et].
    destruct (column_mean_numeric Hh) as [h Eh].
    unfold temperature in Et; unfold humidity in Eh.
    rewrite Et, Eh. cbn [bind]. apply IH.
Qed.

(** What tab 1 hands to its table and metrics. *)
Lemma tab1_ok (env_data growth_data : dict DataFrame) (o : overview) :
  tab1 env_data growth_data = Ok o ->
  exists ts hs,
    Forall2 (fun item t => column_mean (snd item) temperature = Ok t) env_data ts /\
    Forall2 (fun item h => column_mean (snd item) humidity = Ok h) env_data hs /\
    summary_rows o = map (overview_row_of growth_data) env_data /\
    total_count o =
      list_sum (map (fun item => specimen_count growth_data (fst item)) env_data) /\
    metric_avg_temperature o = fdiv_nat (py_sum ts) (List.length ts) /\
    metric_avg_humidity o = fdiv_nat (py_sum hs) (List.length hs) /\
    metric_optimal_ec o = lit "2.0 (하늘고) ⭐".
Proof.
  unfold tab1. intros H.
  destruct (tab1_loop env_data growth_data [] 0 [] []) as [[[[rs tot] ts] hs]|] eqn:Hl;
    [|discriminate].
  cbn [bind] in H.
  destruct (tab1_loop_ok _ _ _ _ _ _ Hl) as (ts' & hs' & Hts & Hhs & Hres).
  cbn [app Nat.add] in Hres. inversion Hres; subst rs tot ts hs.
  unfold sum_over_len in H.
  destruct ts' as [|t ts']; [discriminate|].
  destruct hs' as [|h hs']; [discriminate|].
  cbn [bind] in H. inversion H; subst o. cbn.
  exists (t :: ts'), (h :: hs'). repeat split; assumption.
Qed.

Lemma tab1_total (env_data growth_data : dict DataFrame) :
  env_data <> [] ->
  Forall (fun item => numeric_column (snd item) temperature /\
                      numeric_column (snd item) humidity) env_data ->
  exists o, tab1 env_data growth_data = Ok o.
Proof.
  intros Hne Hwf. unfold tab1.
  destruct (tab1_loop_total growth_data Hwf [] 0%nat [] []) as [res Hres].
  rewrite Hres. cbn [bind].
  destruct (tab1_loop_ok _ _ _ _ _ _ Hres) as (ts & hs & Hts & Hhs & ->).
  cbn [app].
  destruct env_data as [|e env]; [congruence|].
  inversion Hts; subst. inversion Hhs; subst.
  cbn. eexists; reflexivity.
Qed.

Lemma avg_df_total (env_data : dict DataFrame) :
  Forall (fun item => environment_table (snd item)) env_data ->
  exists a, avg_df env_data = Ok a.
Proof.
  induction 1 as [|[school df] rest (Ht & Hh & Hp & He) _ IH]; simpl.
  - eexists; reflexivity.
  - cbn [snd] in Ht, Hh, Hp, He.
    destruct (column_mean_numeric Ht) as [t Et].
    destruct (column_mean_numeric Hh) as [h Eh].
    destruct (column_mean_numeric Hp) as [p Ep].
    destruct (column_mean_numeric He) as [e Ee].
    unfold temperature in Et; unfold humidity in Eh.
    rewrite Et, Eh, Ep, Ee. destruct IH as [more ->]. cbn [bind].
    eexists; reflexivity.
Qed.

(** ** The growth tab *)

Lemma Forall2_in_left {A B} (R : A -> B -> Prop) (l : list A) (l' : list B) (x : A) :
  Forall2 R l l' -> In x l -> exists y, In y l' /\ R x y.
Proof.
  induction 1 as [|a b l l' Hab _ IH]; simpl; intros Hin.
  - contradiction.
  - destruct Hin as [<-|Hin].
    + exists b; split; [left; reflexivity | exact Hab].
    + destruct (IH Hin) as (y & Hy & Hr). exists y; split; [right; exact Hy | exact Hr].
Qed.

Lemma best_total (growth_data : dict DataFrame) (sm : list summary_row) :
  summary growth_data = Ok sm ->
  some_group_weighed growth_data ->
  exists b, best sm = Ok b.
Proof.
  intros Hsm (school & df & col & Hin & Hcol & Hne).
  apply summary_rows_of in Hsm.
  destruct (Forall2_in_left (school, df) Hsm Hin) as (r & Hr & Hrow).
  destruct Hrow as (_ & _ & Hmean & _); cbn [snd] in Hmean.
  destruct (column_mean_spec _ _ Hmean) as (col' & Hcol' & Hm).
  rewrite Hcol in Hcol'; inversion Hcol'; subst col'.
  destruct (mean_spec _ Hm) as (_ & Hsome & _).
  destruct (Hsome Hne) as (q & Hq & _).
  assert (Hinq : In (Fin q) (map mean_fresh_weight sm)).
  { rewrite <- Hq. apply in_map; exact Hr. }
  destruct (idxmax_total _ _ Hinq) as (i & Hi).
  destruct (idxmax_first_maximum _ Hi) as (q' & Hnth & _).
  rewrite nth_error_map in Hnth.
  unfold best. rewrite Hi; cbn [bind]. unfold loc.
  destruct (nth_error sm i) as [b|]; [|discriminate].
  exists b; reflexivity.
Qed.


(** ** The page *)



Lemma render_ok (env_data growth_data : dict DataFrame) (p : page) :
  render env_data growth_data = Ok p ->
  tab1 env_data growth_data = Ok (tab1_overview p) /\
  avg_df env_data = Ok (tab2_averages p) /\
  tab3 growth_data = Ok (tab3_growth p).
Proof.
  unfold render; intros H.
  destruct (tab1 env_data growth_data) as [o|]; [|discriminate].
  destruct (avg_df env_data) as [a|]; [|discriminate].
  destruct (tab3 growth_data) as [g|]; [|discriminate].
  cbn [bind] in H. inversion H; subst p. cbn. repeat split.
Qed.

Lemma script_rendered (s : session) (fs : filesystem) (p : page) :
  fst (script s fs) = Rendered p ->
  exists env_data growth_data,
    fst (load_all s fs) = Ok (Proceed env_data growth_data) /\
    render env_data growth_data = Ok p.
Proof.
  unfold script. destruct (load_all s fs) as [[[m|env g]|e] s']; cbn [fst].
  - discriminate.
  - destruct (render env g) as [p'|] eqn:Hr; cbn [fst]; [|discriminate].
    intros H; inversion H; subst p'. exists env, g; split; [reflexivity | exact Hr].
  - discriminate.
Qed.

(** ** The cache *)

Lemma load_environment_data_hit (s s1 : session) (fs1 fs2 : filesystem)
  (v : dict DataFrame) :
  load_environment_data s fs1 = (Ok v, s1) ->
  load_environment_data s1 fs2 = (Ok v, s1).
Proof.
  unfold load_environment_data. intros H.
  destruct (env_entry s) as [v0|] eqn:E.
  - inversion H; subst v0 s1. rewrite E; reflexivity.
  - destruct (load_environment_data_body fs1) as [v1|e]; inversion H; subst.
    reflexivity.
Qed.

Lemma load_growth_data_hit (s s1 : session) (fs1 fs2 : filesystem)
  (v : option (dict DataFrame)) :
  load_growth_data s fs1 = (Ok v, s1) ->
  load_growth_data s1 fs2 = (Ok v, s1).
Proof.
  unfold load_growth_data. intros H.
  destruct (growth_entry s) as [v0|] eqn:E.
  - inversion H; subst v0 s1. rewrite E; reflexivity.
  - destruct (load_growth_data_body fs1) as [v1|e]; inversion H; subst.
    reflexivity.
Qed.

Lemma load_environment_data_stored (s s1 : session) (fs : filesystem)
  (v : dict DataFrame) :
  load_environment_data s fs = (Ok v, s1) ->
  env_entry s1 = Some v /\ growth_entry s1 = growth_entry s.
Proof.
  unfold load_environment_data. intros H.
  destruct (env_entry s) as [v0|] eqn:E.
  - inversion H; subst v0 s1. split; [exact E | reflexivity].
  - destruct (load_environment_data_body fs) as [v1|e]; inversion H; subst.
    split; reflexivity.
Qed.

Lemma load_growth_data_stored (s s1 : session) (fs : filesystem)
  (v : option (dict DataFrame)) :
  load_growth_data s fs = (Ok v, s1) ->
  growth_entry s1 = Some v /\ env_entry s1 = env_entry s.
Proof.
  unfold load_growth_data. intros H.
  destruct (growth_entry s) as [v0|] eqn:E.
  - inversion H; subst v0 s1. split; [exact E | reflexivity].
  - destruct (load_growth_data_body fs) as [v1|e]; inversion H; subst.
    split; reflexivity.
Qed.

(** A run whose loaders returned is repeated by every later run of the
    session, whatever the directory holds by then. *)
Lemma script_rerun (s s1 : session) (fs1 fs2 : filesystem) (st : startup) :
  load_all s fs1 = (Ok st, s1) ->
  load_all s1 fs2 = (Ok st, s1) /\ script s1 fs2 = script s fs1.
Proof.
  intros H.
  assert (Hl : load_all s1 fs2 = (Ok st, s1)).
  { unfold load_all in H |- *.
    destruct (load_environment_data s fs1) as [[env|e] sa] eqn:He;
      [|discriminate].
    destruct (load_growth_data sa fs1) as [[g|e] sb] eqn:Hg; [|discriminate].
    inversion H; subst st sb.
    destruct (@load_environment_data_stored _ _ _ _ He) as [Ee _].
    destruct (@load_growth_data_stored _ _ _ _ Hg) as [Eg Ee'].
    unfold load_environment_data, load_growth_data.
    rewrite Ee', Ee, Eg. reflexivity. }
  split; [exact Hl|]. unfold script. rewrite H, Hl. reflexivity.
Qed.

(** C8 (amended).  Once a loader has returned a value in a session, every
    later call returns that value and leaves the session as it is, the
    count of body executions included, whatever the directory then holds:
    identical contents are not read again, and changed contents do not
    replace the stored value. *)
Theorem cached_result_outlives_disk_change
  (s s1 : session) (fs1 fs2 : filesystem) :
  (forall v, load_environment_data s fs1 = (Ok v, s1) ->
     load_environment_data s1 fs2 = (Ok v, s1) /\
     body_runs (snd (load_environment_data s1 fs2)) = body_runs s1) /\
  (forall v, load_growth_data s fs1 = (Ok v, s1) ->
     load_growth_data s1 fs2 = (Ok v, s1) /\
     body_runs (snd (load_growth_data s1 fs2)) = body_runs s1).
Proof.
  split; intros v H.
  - rewrite (@load_environment_data_hit s s1 fs1 fs2 v H). split; reflexivity.
  - rewrite (@load_growth_data_hit s s1 fs1 fs2 v H). split; reflexivity.
Qed.

(** ** The metrics of the overview *)

(** C9.  Whatever the session and the directory, a page that renders
    shows the text "2.0 (하늘고) ⭐" as its optimal-EC metric; on the sample
    directory whose heaviest group is 송도고 the growth tab selects 송도고
    while the overview still names 하늘고. *)
Theorem optimal_ec_metric_is_constant :
  (forall s fs p, fst (script s fs) = Rendered p ->
     metric_optimal_ec (tab1_overview p) = lit "2.0 (하늘고) ⭐") /\
  (exists p, fst (script fresh_session Sample.disk_schools) = Rendered p /\
     row_school (best_row (tab3_growth p)) = lit "송도고" /\
     row_ec (best_row (tab3_growth p)) = Some (1 # 1) /\
     metric_optimal_ec (tab1_overview p) = lit "2.0 (하늘고) ⭐").
Proof.
  split.
  - intros s fs p H.
    destruct (script_rendered _ _ H) as (env & g & _ & Hr).
    destruct (render_ok _ _ Hr) as (Ho & _).
    destruct (tab1_ok _ _ Ho) as (ts & hs & _ & _ & _ & _ & _ & _ & Hm).
    exact Hm.
  - eexists. split; [vm_compute; reflexivity|].
    repeat split; vm_compute; reflexivity.
Qed.





Lemma mean_number (vs : list cell) (x : Q) :
  mean vs = Ok (Fin x) ->
  non_missing vs <> [] /\ x == arithmetic_mean (non_missing vs).
Proof.
  intros H. destruct (mean_spec _ H) as (_ & Hsome & Hnone).
  destruct (non_missing vs) as [|q qs] eqn:E.
  - specialize (Hnone eq_refl); discriminate.
  - split; [discriminate|].
    destruct Hsome as (q' & Hq & Hmean); [discriminate|].
    inversion Hq; subst q'. exact Hmean.
Qed.



(** ** Name normalisation *)

(** The helper compares modulo the normaliser: an entry whose normal form
    equals that of the target is found. *)
Lemma find_file_by_name_matches (nfc : str -> str) (directory : list str)
  (target_name e : str) :
  In e directory -> nfc e = nfc target_name ->
  exists f, find_file_by_name nfc directory target_name = Some f /\
            nfc f = nfc target_name.
Proof.
  induction directory as [|file rest IH]; simpl; intros Hin He.
  - contradiction.
  - unfold normalize_name.
    destruct (str_eqb (nfc file) (nfc target_name)) eqn:E.
    + exists file; split; [reflexivity | apply str_eqb_eq; exact E].
    + destruct Hin as [->|Hin].
      * rewrite He, str_eqb_refl in E; discriminate.
      * apply IH; assumption.
Qed.

(** C6.  The scan of [load_environment_data] on a directory that holds the
    environment file of 송도고 under its composed name and under its
    decomposed name: the two names differ and have the same normal form,
    [find_file_by_name] matches one with the other, and the scan
    registers them under two keys; the key of the decomposed name is not
    "송도고", though it normalises to it, and has no entry in
    [ec_conditions]. *)
Theorem decomposed_name_gets_its_own_key :
  Sample.songdo_nfd <> Sample.songdo_nfc /\
  Hangul.nfc Sample.songdo_nfd = Hangul.nfc Sample.songdo_nfc /\
  find_file_by_name Hangul.nfc [Sample.songdo_nfd] Sample.songdo_nfc
    = Some Sample.songdo_nfd /\
  exists k,
    scan_school_files [Sample.songdo_nfc; Sample.songdo_nfd] []
      = Ok [(lit "송도고", Sample.songdo_nfc); (k, Sample.songdo_nfd)] /\
    k <> lit "송도고" /\
    Hangul.nfc k = lit "송도고" /\
    dict_get ec_conditions k = None /\
    dict_get ec_conditions (lit "송도고") = Some (1 # 1).
Proof.
  split; [vm_compute; discriminate|].
  split; [vm_compute; reflexivity|].
  split; [vm_compute; reflexivity|].
  eexists. split; [vm_compute; reflexivity|].
  split; [vm_compute; discriminate|].
  repeat split; vm_compute; reflexivity.
Qed.

(** ** Instances *)

Lemma locator_registers_last_csv_witness :
  exists school_files,
    scan_school_files
      [lit "A_env.csv"; lit "B_env.csv"; lit "growth.xlsx"; lit "A_2.csv"] []
      = Ok school_files /\
    dict_get school_files (lit "A") = Some (lit "A_2.csv") /\
    dict_get school_files (lit "B") = Some (lit "B_env.csv").
Proof.
  destruct (locator_registers_last_csv
              [lit "A_env.csv"; lit "B_env.csv"; lit "growth.xlsx"; lit "A_2.csv"])
    as (d & Hd & Hk & _).
  exists d. split; [exact Hd|]. rewrite !Hk. split; vm_compute; reflexivity.
Defined.




Lemma startup_stops_iff_witness :
  fst (script fresh_session Sample.disk_AB) <> Stopped no_data_message /\
  fst (load_all fresh_session Sample.disk_AB)
    = Ok (Proceed Sample.env_AB Sample.growth_AB).
Proof.
  destruct (@startup_stops_iff Sample.disk_AB
              [lit "A_env.csv"; lit "B_env.csv"; lit "growth.xlsx"]
              Sample.env_AB (Some Sample.growth_AB))
    as (sf & Hscan & Hiff & Hgo & _).
  - reflexivity.
  - vm_compute; reflexivity.
  - vm_compute; reflexivity.
  - vm_compute in Hscan. inversion Hscan; subst sf.
    assert (Hno : ~ ([(lit "A", lit "A_env.csv"); (lit "B", lit "B_env.csv")] = [] \/
                     first_xlsx [lit "A_env.csv"; lit "B_env.csv"; lit "growth.xlsx"] = None \/
                     (exists x,
                        first_xlsx [lit "A_env.csv"; lit "B_env.csv"; lit "growth.xlsx"] = Some x /\
                        ExcelFile_sheet_names Sample.disk_AB x = Ok []))).
    { intros [H|[H|(x & _ & H)]]; vm_compute in H; discriminate. }
    split.
    + intros H. apply Hno, Hiff, H.
    + destruct (Hgo Hno) as (g & Hg & Hp). inversion Hg; subst g. exact Hp.
Defined.

(** An environment file next to a workbook without sheets: the mapping of
    the scan is not empty and a workbook is found, and the run stops. *)
Lemma workbook_without_sheets_stops :
  iterdir Sample.disk_no_sheet = Ok [lit "A_env.csv"; lit "growth.xlsx"] /\
  ~ (fst (script fresh_session Sample.disk_no_sheet) = Stopped no_data_message <->
     scan_school_files [lit "A_env.csv"; lit "growth.xlsx"] [] = Ok [] \/
     first_xlsx [lit "A_env.csv"; lit "growth.xlsx"] = None).
Proof.
  split; [reflexivity|]. intros [H _].
  destruct H as [H|H]; [vm_compute; reflexivity | |]; vm_compute in H; discriminate.
Qed.



Lemma concat_df_rows_and_tags_witness :
  exists c,
    concat_df Sample.growth_AB = Ok c /\
    len c = 8%nat /\
    getitem c school_column =
      Ok (repeat (Text (lit "A")) 3 ++ repeat (Text (lit "B")) 5).
Proof.
  destruct (@concat_df_rows_and_tags Sample.growth_AB) as (c & Hc & _ & Hlen & Htag).
  - discriminate.
  - exists c. split; [exact Hc|]. split.
    + rewrite Hlen. reflexivity.
    + rewrite Htag. reflexivity.
Defined.

Lemma cached_result_outlives_disk_change_witness :
  let s1 := snd (load_environment_data fresh_session Sample.disk_AB) in
  load_environment_data s1 Sample.disk_A = (Ok Sample.env_AB, s1) /\
  body_runs (snd (load_environment_data s1 Sample.disk_A)) = 1%nat.
Proof.
  cbv zeta.
  destruct (@cached_result_outlives_disk_change fresh_session
              (snd (load_environment_data fresh_session Sample.disk_AB))
              Sample.disk_AB Sample.disk_A) as [He _].
  destruct (He Sample.env_AB) as [H1 H2].
  - vm_compute; reflexivity.
  - split; [exact H1|]. rewrite H2. vm_compute; reflexivity.
Defined.

(** The file of group B is removed after the first call: the second call
    still returns the tables of A and B, not what the directory holds. *)
Lemma removed_file_stays_cached :
  let s1 := snd (load_environment_data fresh_session Sample.disk_AB) in
  iterdir Sample.disk_A <> iterdir Sample.disk_AB /\
  fst (load_environment_data s1 Sample.disk_A)
    = load_environment_data_body Sample.disk_AB /\
  load_environment_data_body Sample.disk_A
    <> fst (load_environment_data s1 Sample.disk_A).
Proof.
  cbv zeta. split; [vm_compute; discriminate|].
  split; [vm_compute; reflexivity|].
  intros H.
  apply (f_equal (fun r => match r with
                           | Ok d => List.length d
                           | Raise _ => 0%nat
                           end)) in H.
  vm_compute in H. discriminate.
Qed.

Lemma optimal_ec_metric_is_constant_witness :
  exists p,
    fst (script fresh_session Sample.disk_AB) = Rendered p /\
    metric_optimal_ec (tab1_overview p) = lit "2.0 (하늘고) ⭐".
Proof.
  destruct (script fresh_session Sample.disk_AB) as [[m|p|e] s'] eqn:Hs;
    try (vm_compute in Hs; discriminate).
  exists p. split; [reflexivity|].
  apply (proj1 optimal_ec_metric_is_constant fresh_session Sample.disk_AB p).
  rewrite Hs; reflexivity.
Defined.



(* ================================================================== *)
(** * Further properties of the code *)

(** ** Looking a file up by name *)

(** X1.  [find_file_by_name] returns an entry exactly when it is the
    first entry of the directory, in iteration order, whose normalised
    name equals the normalised target. *)
Theorem find_file_by_name_first_match (nfc : str -> str)
  (directory : list str) (target_name f : str) :
  find_file_by_name nfc directory target_name = Some f <->
  exists before after,
    directory = before ++ f :: after /\
    nfc f = nfc target_name /\
    Forall (fun g => nfc g <> nfc target_name) before.
Proof.
  induction directory as [|file rest IH]; simpl.
  - split; [discriminate|]. intros (b & a & H & _).
    destruct b; discriminate.
  - unfold normalize_name.
    destruct (str_eqb (nfc file) (nfc target_name)) eqn:E.
    + apply str_eqb_eq in E. split.
      * intros H; inversion H; subst f.
        exists [], rest. repeat split; [exact E | constructor].
      * intros (b & a & H & Hf & Hb). destruct b as [|g b].
        -- inversion H; reflexivity.
        -- inversion H; subst g. inversion Hb; subst. contradiction.
    + apply str_eqb_neq in E. rewrite IH. split.
      * intros (b & a & H & Hf & Hb). exists (file :: b), a.
        subst rest. repeat split; [exact Hf | constructor; assumption].
      * intros (b & a & H & Hf & Hb). destruct b as [|g b].
        -- inversion H; subst file. contradiction.
        -- inversion H; subst g rest. inversion Hb; subst.
           exists b, a. repeat split; assumption.
Qed.

(** X2.  [find_file_by_name] returns [None] exactly when no entry of the
    directory has the normalised name of the target. *)
Theorem find_file_by_name_none (nfc : str -> str)
  (directory : list str) (target_name : str) :
  find_file_by_name nfc directory target_name = None <->
  Forall (fun g => nfc g <> nfc target_name) directory.
Proof.
  induction directory as [|file rest IH]; simpl.
  - split; [constructor | reflexivity].
  - unfold normalize_name.
    destruct (str_eqb (nfc file) (nfc target_name)) eqn:E.
    + apply str_eqb_eq in E. split; [discriminate|].
      intros H; inversion H; subst. contradiction.
    + apply str_eqb_neq in E. rewrite IH. split.
      * intros H; constructor; assumption.
      * intros H; inversion H; assumption.
Qed.

(** X3.  The result of [find_file_by_name] depends on the target only
    through its normal form: two targets with the same normal form find
    the same entry in every directory. *)
Theorem find_file_by_name_target_normal_form (nfc : str -> str)
  (directory : list str) (t1 t2 : str) :
  nfc t1 = nfc t2 ->
  find_file_by_name nfc directory t1 = find_file_by_name nfc directory t2.
Proof.
  intros H. induction directory as [|file rest IH]; simpl.
  - reflexivity.
  - unfold normalize_name. rewrite H, IH. reflexivity.
Qed.

Lemma find_file_by_name_first_match_witness :
  find_file_by_name Hangul.nfc
    [lit "notes.txt"; Sample.songdo_nfd; Sample.songdo_nfc] Sample.songdo_nfc
    = Some Sample.songdo_nfd.
Proof.
  apply (proj2 (find_file_by_name_first_match Hangul.nfc
                  [lit "notes.txt"; Sample.songdo_nfd; Sample.songdo_nfc]
                  Sample.songdo_nfc Sample.songdo_nfd)).
  exists [lit "notes.txt"], [Sample.songdo_nfc].
  split; [reflexivity|]. split; [vm_compute; reflexivity|].
  constructor; [vm_compute; discriminate | constructor].
Defined.

Lemma find_file_by_name_none_witness :
  find_file_by_name Hangul.nfc [lit "notes.txt"; lit "A_env.csv"]
    Sample.songdo_nfc = None.
Proof.
  apply (proj2 (find_file_by_name_none Hangul.nfc
                  [lit "notes.txt"; lit "A_env.csv"] Sample.songdo_nfc)).
  repeat constructor; vm_compute; discriminate.
Defined.

Lemma find_file_by_name_target_normal_form_witness :
  find_file_by_name Hangul.nfc [Sample.songdo_nfc] Sample.songdo_nfd
  = find_file_by_name Hangul.nfc [Sample.songdo_nfc] Sample.songdo_nfc.
Proof.
  apply (find_file_by_name_target_normal_form Hangul.nfc
           [Sample.songdo_nfc] Sample.songdo_nfd Sample.songdo_nfc).
  vm_compute; reflexivity.
Defined.

(** ** Keys of a dict *)

Lemma dict_set_keys {V} (d : dict V) (k : str) (v : V) :
  keys (dict_set d k v) =
  if existsb (str_eqb k) (keys d) then keys d else keys d ++ [k].
Proof.
  unfold keys. induction d as [|[k0 v0] d IH]; cbn [dict_set map fst existsb].
  - reflexivity.
  - rewrite (str_eqb_sym k k0).
    destruct (str_eqb k0 k) eqn:E; cbn [map fst orb].
    + reflexivity.
    + rewrite IH.
      destruct (existsb (str_eqb k) (map fst d)); reflexivity.
Qed.

Lemma dict_set_NoDup {V} (d : dict V) (k : str) (v : V) :
  NoDup (keys d) -> NoDup (keys (dict_set d k v)).
Proof.
  intros H. rewrite dict_set_keys.
  destruct (existsb (str_eqb k) (keys d)) eqn:E; [exact H|].
  apply NoDup_app; [exact H | repeat constructor; intros [] |].
  intros x Hx [<-|[]].
  apply existsb_str_in in Hx. congruence.
Qed.

Lemma dict_set_new {V} (d : dict V) (k : str) (v : V) :
  ~ In k (keys d) -> dict_set d k v = d ++ [(k, v)].
Proof.
  induction d as [|[k0 v0] d IH]; simpl; intros H.
  - reflexivity.
  - destruct (str_eqb k0 k) eqn:E.
    + apply str_eqb_eq in E. exfalso; apply H; left; exact E.
    + rewrite IH; [reflexivity|]. intros Hin; apply H; right; exact Hin.
Qed.

Lemma dict_get_NoDup_in {V} (d : dict V) (k : str) (v : V) :
  NoDup (keys d) -> In (k, v) d -> dict_get d k = Some v.
Proof.
  induction d as [|[k0 v0] d IH]; simpl; intros Hnd Hin.
  - contradiction.
  - inversion Hnd as [|? ? Hk0 Hnd']; subst.
    destruct Hin as [Heq|Hin].
    + inversion Heq; subst. rewrite str_eqb_refl. reflexivity.
    + destruct (str_eqb k0 k) eqn:E.
      * apply str_eqb_eq in E; subst k0. exfalso; apply Hk0.
        apply (in_map fst) in Hin. exact Hin.
      * apply IH; assumption.
Qed.

Lemma dict_get_some_in {V} (d : dict V) (k : str) (v : V) :
  dict_get d k = Some v -> In (k, v) d.
Proof.
  induction d as [|[k0 v0] d IH]; simpl; intros H.
  - discriminate.
  - destruct (str_eqb k0 k) eqn:E.
    + apply str_eqb_eq in E; inversion H; subst; left; reflexivity.
    + right; apply IH; exact H.
Qed.

(** ** The scan of the environment files *)

Lemma filter_filter {A} (p q : A -> bool) (l : list A) :
  filter p (filter q l) = filter (fun x => q x && p x) l.
Proof.
  induction l as [|x l IH]; simpl; [reflexivity|].
  destruct (q x); simpl; [destruct (p x)|]; rewrite ?IH; reflexivity.
Qed.

Lemma first_segment_no_underscore (s : str) :
  ~ In underscore (first_segment s).
Proof.
  induction s as [|c s IH]; simpl; [tauto|].
  destruct (c =? underscore)%N eqn:E; simpl; [tauto|].
  apply N.eqb_neq in E. intros [H|H]; [congruence | exact (IH H)].
Qed.

Lemma first_occurrences_in (l : list str) (x : str) :
  In x (first_occurrences l) <-> In x l.
Proof.
  induction l as [|y l IH]; simpl; [tauto|].
  rewrite filter_In, IH. split.
  - intros [H|[H _]]; [left | right]; assumption.
  - intros [H|H]; [left; exact H|].
    destruct (str_eqb x y) eqn:E.
    + apply str_eqb_eq in E; left; congruence.
    + right; split; [exact H | reflexivity].
Qed.

Lemma first_occurrences_NoDup (l : list str) : NoDup (first_occurrences l).
Proof.
  induction l as [|y l IH]; simpl; constructor.
  - rewrite filter_In. intros [_ H]. rewrite str_eqb_refl in H. discriminate.
  - apply NoDup_filter; exact IH.
Qed.

Lemma first_occurrences_id (l : list str) :
  NoDup l -> first_occurrences l = l.
Proof.
  induction 1 as [|x l Hx _ IH]; simpl; [reflexivity|].
  rewrite IH. f_equal. apply forallb_filter_id.
  apply forallb_forall. intros y Hy.
  apply negb_true_iff, str_eqb_neq. congruence.
Qed.

Lemma scan_school_files_keys (entries : list str) :
  forall acc d,
  scan_school_files entries acc = Ok d ->
  keys d = keys acc ++
           filter (fun y => negb (existsb (str_eqb y) (keys acc)))
                  (first_occurrences
                     (map group_identity (filter is_csv entries))).
Proof.
  induction entries as [|f rest IH]; intros acc d H.
  - simpl in H. inversion H; subst d. simpl. rewrite app_nil_r; reflexivity.
  - cbn [scan_school_files] in H. cbn [filter]. unfold is_csv at 1.
    destruct (str_eqb (suffix f) (lit ".csv")) eqn:Esuf.
    + rewrite split_first_segment in H. cbn [bind] in H.
      apply IH in H. rewrite H, dict_set_keys. clear H IH.
      cbn [map first_occurrences filter]. fold (group_identity f).
      set (k := group_identity f).
      set (L := first_occurrences (map group_identity (filter is_csv rest))).
      destruct (existsb (str_eqb k) (keys acc)) eqn:Ek; cbn [negb].
      * f_equal. rewrite filter_filter. apply filter_ext. intros y.
        destruct (str_eqb y k) eqn:Ey; [|reflexivity].
        apply str_eqb_eq in Ey; subst y. rewrite Ek. reflexivity.
      * rewrite <- app_assoc. cbn [app]. f_equal. f_equal.
        rewrite filter_filter. apply filter_ext. intros y.
        rewrite existsb_app. cbn [existsb]. rewrite orb_false_r, negb_orb.
        apply andb_comm.
    + apply IH in H. exact H.
Qed.

Lemma scan_school_files_NoDup (entries : list str) (d : dict str) :
  scan_school_files entries [] = Ok d -> NoDup (keys d).
Proof.
  intros H. rewrite (scan_school_files_keys _ _ H). cbn [keys map app].
  apply NoDup_filter, first_occurrences_NoDup.
Qed.

(** X4.  Entries without the [.csv] suffix have no influence on the
    environment-file mapping: scanning a directory and scanning only its
    [.csv] entries give the same mapping. *)
Theorem scan_ignores_other_files (entries : list str) (acc : dict str) :
  scan_school_files entries acc =
  scan_school_files (filter is_csv entries) acc.
Proof.
  revert acc; induction entries as [|f rest IH]; intros acc; [reflexivity|].
  cbn [scan_school_files filter]. unfold is_csv at 1.
  destruct (str_eqb (suffix f) (lit ".csv")) eqn:E.
  - cbn [scan_school_files]. rewrite E.
    rewrite split_first_segment. cbn [bind]. apply IH.
  - apply IH.
Qed.

(** X5.  The keys of the environment-file mapping are the group
    identities of the [.csv] entries, each once, in the order in which
    they first occur in the directory; no key contains an underscore. *)
Theorem scan_keys_first_occurrences (entries : list str) (school_files : dict str) :
  scan_school_files entries [] = Ok school_files ->
  keys school_files =
    first_occurrences (map group_identity (filter is_csv entries)) /\
  NoDup (keys school_files) /\
  Forall (fun k => ~ In underscore k) (keys school_files).
Proof.
  intros H.
  assert (Hk : keys school_files =
               first_occurrences (map group_identity (filter is_csv entries))).
  { rewrite (scan_school_files_keys _ _ H). cbn [keys map app].
    apply forallb_filter_id. apply forallb_forall. reflexivity. }
  split; [exact Hk|]. split; [exact (scan_school_files_NoDup _ H)|].
  rewrite Hk. apply Forall_forall. intros k Hin.
  apply first_occurrences_in, in_map_iff in Hin.
  destruct Hin as (f & <- & _). apply first_segment_no_underscore.
Qed.

(** X6.  A pair is in the environment-file mapping exactly when its file
    is the last [.csv] entry of the directory with that group identity;
    so every registered file is a [.csv] entry of the directory. *)
Theorem scan_items_are_last_csv (entries : list str) (school_files : dict str)
  (k f : str) :
  scan_school_files entries [] = Ok school_files ->
  (In (k, f) school_files <-> last_csv_of entries k = Some f) /\
  (In (k, f) school_files ->
     In f entries /\ suffix f = lit ".csv" /\ group_identity f = k).
Proof.
  intros H.
  assert (Hget : forall k', dict_get school_files k' = last_csv_of entries k').
  { destruct (scan_school_files_spec entries []) as (d & Hd & Hk).
    rewrite H in Hd; inversion Hd; subst d.
    intros k'. rewrite Hk. destruct (last_csv_of entries k'); reflexivity. }
  assert (Hiff : In (k, f) school_files <-> last_csv_of entries k = Some f).
  { rewrite <- Hget. split.
    - apply dict_get_NoDup_in. exact (scan_school_files_NoDup _ H).
    - apply dict_get_some_in. }
  split; [exact Hiff|]. intros Hin. apply Hiff in Hin.
  unfold last_csv_of in Hin. apply find_some in Hin. destruct Hin as [Hin Hc].
  unfold is_csv_of in Hc. apply andb_true_iff in Hc. destruct Hc as [H1 H2].
  apply str_eqb_eq in H1, H2. apply in_rev in Hin. auto.
Qed.

Lemma scan_keys_first_occurrences_witness :
  exists school_files,
    scan_school_files
      [lit "B_1.csv"; lit "notes.txt"; lit "A_1.csv"; lit "B_2.csv"] []
      = Ok school_files /\
    keys school_files = [lit "B"; lit "A"] /\
    dict_get school_files (lit "B") = Some (lit "B_2.csv").
Proof.
  destruct (scan_school_files
              [lit "B_1.csv"; lit "notes.txt"; lit "A_1.csv"; lit "B_2.csv"] [])
    as [sf|] eqn:H; [|vm_compute in H; discriminate].
  exists sf. split; [reflexivity|].
  destruct (scan_keys_first_occurrences _ H) as (Hk & _).
  split; [rewrite Hk; vm_compute; reflexivity|].
  vm_compute in H. inversion H; subst sf. vm_compute; reflexivity.
Defined.

Lemma scan_items_are_last_csv_witness :
  exists school_files,
    scan_school_files [lit "B_1.csv"; lit "A_1.csv"; lit "B_2.csv"] []
      = Ok school_files /\
    In (lit "B", lit "B_2.csv") school_files /\
    ~ In (lit "B", lit "B_1.csv") school_files.
Proof.
  destruct (scan_school_files [lit "B_1.csv"; lit "A_1.csv"; lit "B_2.csv"] [])
    as [sf|] eqn:H; [|vm_compute in H; discriminate].
  exists sf. split; [reflexivity|]. split.
  - apply (proj1 (@scan_items_are_last_csv _ sf (lit "B") (lit "B_2.csv") H)).
    vm_compute; reflexivity.
  - intros Hin.
    apply (proj1 (@scan_items_are_last_csv _ sf (lit "B") (lit "B_1.csv") H)) in Hin.
    vm_compute in Hin. discriminate.
Defined.

(** ** The environment loader *)

Lemma read_school_files_spec (fs : filesystem) (items : list (str * str)) :
  forall acc env_data,
  NoDup (keys acc ++ map fst items) ->
  (read_school_files fs items acc = Ok env_data <->
   exists tail, env_data = acc ++ tail /\ Forall2 (read_as fs) items tail).
Proof.
  induction items as [|[school path] rest IH]; intros acc env_data Hnd.
  - simpl. split.
    + intros H; inversion H; subst. exists []. rewrite app_nil_r.
      split; [reflexivity | constructor].
    + intros (tail & -> & Hf). inversion Hf; subst.
      rewrite app_nil_r; reflexivity.
  - cbn [read_school_files map fst] in *.
    assert (Hnew : ~ In school (keys acc)).
    { apply NoDup_remove_2 in Hnd. intros Hin; apply Hnd.
      apply in_or_app; left; exact Hin. }
    destruct (read_csv fs path) as [df|e] eqn:Hread; cbn [bind].
    + rewrite (dict_set_new acc school df Hnew).
      rewrite IH.
      * split.
        -- intros (tail & -> & Hf). exists ((school, df) :: tail).
           rewrite <- app_assoc. split; [reflexivity|].
           constructor; [split; [reflexivity | exact Hread] | exact Hf].
        -- intros (tail & -> & Hf).
           inversion Hf as [|? [k' df'] ? tail' [Hk Hr] Hf']; subst.
           cbn [fst snd] in Hk, Hr. subst k'.
           rewrite Hread in Hr. inversion Hr; subst df'.
           exists tail'. rewrite <- app_assoc. split; [reflexivity | exact Hf'].
      * unfold keys. rewrite map_app. cbn [map fst].
        rewrite <- app_assoc. exact Hnd.
    + split; [discriminate|].
      intros (tail & _ & Hf).
      inversion Hf as [|? ? ? ? [_ Hr] _]; subst.
      cbn [snd] in Hr. rewrite Hread in Hr. discriminate.
Qed.

Lemma Forall2_keys {A B} (R : str * A -> str * B -> Prop)
  (l : list (str * A)) (l' : list (str * B)) :
  (forall x y, R x y -> fst y = fst x) ->
  Forall2 R l l' -> map fst l' = map fst l.
Proof.
  intros HR. induction 1 as [|x y l l' Hxy _ IH]; simpl; [reflexivity|].
  rewrite (HR _ _ Hxy), IH. reflexivity.
Qed.

Lemma load_environment_data_body_spec (fs : filesystem) (entries : list str)
  (school_files : dict str) (env_data : dict DataFrame) :
  iterdir fs = Ok entries ->
  scan_school_files entries [] = Ok school_files ->
  (load_environment_data_body fs = Ok env_data <->
   Forall2 (read_as fs) school_files env_data).
Proof.
  intros Hit Hscan. unfold load_environment_data_body.
  rewrite Hit; cbn [bind]. rewrite Hscan; cbn [bind].
  rewrite read_school_files_spec.
  - cbn [app]. split.
    + intros (tail & -> & Hf); exact Hf.
    + intros Hf; exists env_data; split; [reflexivity | exact Hf].
  - cbn [keys map app]. exact (scan_school_files_NoDup _ Hscan).
Qed.

Lemma load_environment_data_body_NoDup (fs : filesystem)
  (env_data : dict DataFrame) :
  load_environment_data_body fs = Ok env_data -> NoDup (keys env_data).
Proof.
  intros H. unfold load_environment_data_body in H.
  destruct (iterdir fs) as [entries|] eqn:Hit; [|discriminate].
  cbn [bind] in H.
  destruct (scan_school_files entries []) as [sf|] eqn:Hscan; [|discriminate].
  assert (Hb : load_environment_data_body fs = Ok env_data).
  { unfold load_environment_data_body. rewrite Hit; cbn [bind].
    rewrite Hscan. exact H. }
  apply (proj1 (@load_environment_data_body_spec fs entries sf env_data Hit Hscan)) in Hb.
  unfold keys. rewrite (@Forall2_keys _ _ (read_as fs) sf env_data).
  - exact (scan_school_files_NoDup _ Hscan).
  - intros x y [Hk _]; exact Hk.
  - exact Hb.
Qed.

(** X7.  The environment loader returns exactly when every registered
    file can be read; it then returns one table per key of the
    environment-file mapping, in the order of the mapping, each the table
    read from the file registered under that key. *)
Theorem env_loader_returns_registered_tables (fs : filesystem)
  (entries : list str) (school_files : dict str) (env_data : dict DataFrame) :
  iterdir fs = Ok entries ->
  scan_school_files entries [] = Ok school_files ->
  (load_environment_data_body fs = Ok env_data <->
   Forall2 (read_as fs) school_files env_data) /\
  (load_environment_data_body fs = Ok env_data ->
   keys env_data = keys school_files).
Proof.
  intros Hit Hscan.
  pose proof (@load_environment_data_body_spec fs entries school_files env_data Hit Hscan) as Hspec.
  split; [exact Hspec|]. intros H. apply Hspec in H.
  unfold keys. apply (@Forall2_keys _ _ (read_as fs)); [|exact H].
  intros x y [Hk _]; exact Hk.
Qed.

Lemma read_school_files_agree (fs fs' : filesystem) (items : list (str * str)) :
  (forall k p, In (k, p) items -> read_csv fs p = read_csv fs' p) ->
  forall acc, read_school_files fs items acc = read_school_files fs' items acc.
Proof.
  induction items as [|[school path] rest IH]; intros Hagree acc; [reflexivity|].
  cbn [read_school_files].
  rewrite <- (Hagree school path (or_introl eq_refl)).
  destruct (read_csv fs path) as [df|e]; cbn [bind]; [|reflexivity].
  apply IH. intros k p Hin. apply (Hagree k p). right; exact Hin.
Qed.

(** X8.  The environment loader reads the registered files and no other:
    two directories with the same listing whose registered files read
    the same give the same result, whatever their other files (those
    without the suffix, and those that lost their key to a later file)
    contain. *)
Theorem env_loader_reads_registered_only (fs fs' : filesystem)
  (entries : list str) (school_files : dict str) :
  iterdir fs = Ok entries ->
  iterdir fs' = Ok entries ->
  scan_school_files entries [] = Ok school_files ->
  (forall k p, In (k, p) school_files -> read_csv fs p = read_csv fs' p) ->
  load_environment_data_body fs = load_environment_data_body fs'.
Proof.
  intros Hit Hit' Hscan Hagree. unfold load_environment_data_body.
  rewrite Hit, Hit'; cbn [bind]. rewrite Hscan; cbn [bind].
  apply read_school_files_agree. exact Hagree.
Qed.

Lemma read_school_files_failure (fs : filesystem) (l1 l2 : list (str * str))
  (k p : str) (e : exn) :
  Forall (fun item => exists df, read_csv fs (snd item) = Ok df) l1 ->
  read_csv fs p = Raise e ->
  forall acc, read_school_files fs (l1 ++ (k, p) :: l2) acc = Raise e.
Proof.
  intros Hok Hfail. induction Hok as [|[k1 p1] l1 [df Hdf] _ IH]; intros acc.
  - cbn [app read_school_files]. rewrite Hfail. reflexivity.
  - cbn [app read_school_files]. cbn [snd] in Hdf. rewrite Hdf; cbn [bind].
    apply IH.
Qed.

(** X9.  When a registered file cannot be read and the files registered
    before it can, the environment loader raises the exception of that
    file; nothing is returned for the other groups. *)
Theorem env_loader_first_failure (fs : filesystem) (entries : list str)
  (l1 l2 : list (str * str)) (k p : str) (e : exn) :
  iterdir fs = Ok entries ->
  scan_school_files entries [] = Ok (l1 ++ (k, p) :: l2) ->
  Forall (fun item => exists df, read_csv fs (snd item) = Ok df) l1 ->
  read_csv fs p = Raise e ->
  load_environment_data_body fs = Raise e.
Proof.
  intros Hit Hscan Hok Hfail. unfold load_environment_data_body.
  rewrite Hit; cbn [bind]. rewrite Hscan; cbn [bind].
  apply read_school_files_failure; assumption.
Qed.

Lemma env_loader_returns_registered_tables_witness :
  load_environment_data_body Sample.disk_AB = Ok Sample.env_AB /\
  keys Sample.env_AB = [lit "A"; lit "B"].
Proof.
  destruct (@env_loader_returns_registered_tables Sample.disk_AB
              [lit "A_env.csv"; lit "B_env.csv"; lit "growth.xlsx"]
              [(lit "A", lit "A_env.csv"); (lit "B", lit "B_env.csv")]
              Sample.env_AB) as [Hiff Hkeys].
  - reflexivity.
  - vm_compute; reflexivity.
  - assert (Hb : load_environment_data_body Sample.disk_AB = Ok Sample.env_AB).
    { apply Hiff. repeat constructor. }
    split; [exact Hb | exact (Hkeys Hb)].
Defined.

Lemma env_loader_reads_registered_only_witness :
  load_environment_data_body (Cases.disk_shadowed (Raise OSError))
  = load_environment_data_body
      (Cases.disk_shadowed (Ok (Sample.env_table []))).
Proof.
  apply (@env_loader_reads_registered_only
           (Cases.disk_shadowed (Raise OSError))
           (Cases.disk_shadowed (Ok (Sample.env_table [])))
           [lit "A_old.csv"; lit "A_env.csv"; lit "B_env.csv"; lit "growth.xlsx"]
           [(lit "A", lit "A_env.csv"); (lit "B", lit "B_env.csv")]).
  - reflexivity.
  - reflexivity.
  - vm_compute; reflexivity.
  - intros k p [H|[H|[]]]; inversion H; subst; reflexivity.
Defined.

Lemma env_loader_first_failure_witness :
  load_environment_data_body Cases.disk_B_unreadable = Raise OSError.
Proof.
  apply (@env_loader_first_failure Cases.disk_B_unreadable
           [lit "A_env.csv"; lit "B_env.csv"; lit "growth.xlsx"]
           [(lit "A", lit "A_env.csv")] [] (lit "B") (lit "B_env.csv") OSError).
  - reflexivity.
  - vm_compute; reflexivity.
  - constructor; [|constructor]. eexists. vm_compute; reflexivity.
  - vm_compute; reflexivity.
Defined.

(** ** The growth loader *)

(** X10.  The growth loader takes the first entry of the directory, in
    iteration order, that has the [.xlsx] suffix, and takes none exactly
    when no entry has it. *)
Theorem first_xlsx_is_first_workbook (entries : list str) :
  (forall x, first_xlsx entries = Some x <->
     exists before after,
       entries = before ++ x :: after /\
       is_xlsx x = true /\
       Forall (fun g => is_xlsx g = false) before) /\
  (first_xlsx entries = None <->
     Forall (fun g => is_xlsx g = false) entries).
Proof.
  induction entries as [|f rest [IHs IHn]]; cbn [first_xlsx].
  - split.
    + intros x. split; [discriminate|]. intros (b & a & H & _).
      destruct b; discriminate.
    + split; [constructor | reflexivity].
  - fold (is_xlsx f). destruct (is_xlsx f) eqn:E; split.
    + intros x. split.
      * intros H; inversion H; subst x. exists [], rest.
        repeat split; [exact E | constructor].
      * intros (b & a & H & Hx & Hb). destruct b as [|g b].
        -- inversion H; reflexivity.
        -- inversion H; subst g. inversion Hb; subst. congruence.
    + split; [discriminate|]. intros H; inversion H; subst; congruence.
    + intros x. rewrite IHs. split.
      * intros (b & a & H & Hx & Hb). exists (f :: b), a. subst rest.
        repeat split; [exact Hx | constructor; assumption].
      * intros (b & a & H & Hx & Hb). destruct b as [|g b].
        -- inversion H; subst f. congruence.
        -- inversion H; subst g rest. inversion Hb; subst.
           exists b, a. repeat split; assumption.
    + rewrite IHn. split.
      * intros H; constructor; assumption.
      * intros H; inversion H; assumption.
Qed.

Lemma read_sheets_spec (fs : filesystem) (x : str) (sheets : list str) :
  forall acc growth_data,
  NoDup (keys acc ++ sheets) ->
  (read_sheets fs x sheets acc = Ok growth_data <->
   exists tail, growth_data = acc ++ tail /\
                Forall2 (sheet_as fs x) sheets tail).
Proof.
  induction sheets as [|sheet rest IH]; intros acc growth_data Hnd.
  - simpl. split.
    + intros H; inversion H; subst. exists []. rewrite app_nil_r.
      split; [reflexivity | constructor].
    + intros (tail & -> & Hf). inversion Hf; subst.
      rewrite app_nil_r; reflexivity.
  - cbn [read_sheets] in *.
    assert (Hnew : ~ In sheet (keys acc)).
    { apply NoDup_remove_2 in Hnd. intros Hin; apply Hnd.
      apply in_or_app; left; exact Hin. }
    destruct (read_excel fs x sheet) as [df|e] eqn:Hread; cbn [bind].
    + rewrite (dict_set_new acc sheet df Hnew).
      rewrite IH.
      * split.
        -- intros (tail & -> & Hf). exists ((sheet, df) :: tail).
           rewrite <- app_assoc. split; [reflexivity|].
           constructor; [split; [reflexivity | exact Hread] | exact Hf].
        -- intros (tail & -> & Hf).
           inversion Hf as [|? [k' df'] ? tail' [Hk Hr] Hf']. clear Hf.
           cbn [fst snd] in Hk, Hr. subst.
           rewrite Hread in Hr. inversion Hr; subst df'.
           exists tail'. rewrite <- app_assoc. split; [reflexivity | exact Hf'].
      * unfold keys. rewrite map_app. cbn [map fst].
        rewrite <- app_assoc. exact Hnd.
    + split; [discriminate|].
      intros (tail & _ & Hf).
      inversion Hf as [|? ? ? ? [_ Hr] _]; subst.
      rewrite Hread in Hr. discriminate.
Qed.

Lemma read_sheets_NoDup (fs : filesystem) (x : str) (sheets : list str) :
  forall acc growth_data,
  NoDup (keys acc) ->
  read_sheets fs x sheets acc = Ok growth_data -> NoDup (keys growth_data).
Proof.
  induction sheets as [|sheet rest IH]; intros acc growth_data Hnd H.
  - simpl in H. inversion H; subst; exact Hnd.
  - cbn [read_sheets] in H.
    destruct (read_excel fs x sheet) as [df|e]; cbn [bind] in H; [|discriminate].
    apply (IH (dict_set acc sheet df)); [|exact H].
    apply dict_set_NoDup; exact Hnd.
Qed.

Lemma load_growth_data_body_NoDup (fs : filesystem)
  (growth_data : dict DataFrame) :
  load_growth_data_body fs = Ok (Some growth_data) -> NoDup (keys growth_data).
Proof.
  unfold load_growth_data_body. intros H.
  destruct (iterdir fs) as [entries|]; [|discriminate]. cbn [bind] in H.
  destruct (first_xlsx entries) as [x|]; [|discriminate].
  destruct (ExcelFile_sheet_names fs x) as [sheets|]; [|discriminate].
  cbn [bind] in H.
  destruct (read_sheets fs x sheets []) as [gd|] eqn:Hr; [|discriminate].
  cbn [bind] in H. inversion H; subst gd.
  apply (read_sheets_NoDup fs x sheets [] (NoDup_nil _) Hr).
Qed.

(** X11.  With a workbook [x] whose sheet names are distinct, the growth
    loader returns a mapping exactly when every sheet can be read; the
    mapping then has one table per sheet, keyed by the sheet name, in the
    order of the sheets. *)
Theorem growth_loader_returns_sheets (fs : filesystem) (entries : list str)
  (x : str) (sheets : list str) (growth_data : dict DataFrame) :
  iterdir fs = Ok entries ->
  first_xlsx entries = Some x ->
  ExcelFile_sheet_names fs x = Ok sheets ->
  NoDup sheets ->
  (load_growth_data_body fs = Ok (Some growth_data) <->
   Forall2 (sheet_as fs x) sheets growth_data) /\
  (load_growth_data_body fs = Ok (Some growth_data) ->
   keys growth_data = sheets).
Proof.
  intros Hit Hx Hs Hnd.
  assert (Hiff : load_growth_data_body fs = Ok (Some growth_data) <->
                 Forall2 (sheet_as fs x) sheets growth_data).
  { unfold load_growth_data_body. rewrite Hit; cbn [bind]. rewrite Hx, Hs.
    cbn [bind].
    pose proof (read_sheets_spec fs x sheets [] growth_data Hnd) as Hspec.
    cbn [app] in Hspec. split.
    - intros H.
      destruct (read_sheets fs x sheets []) as [gd|]; [|discriminate].
      cbn [bind] in H. inversion H; subst gd.
      destruct (proj1 Hspec eq_refl) as (tail & -> & Hf). exact Hf.
    - intros Hf.
      rewrite (proj2 Hspec (ex_intro _ growth_data (conj eq_refl Hf))).
      reflexivity. }
  split; [exact Hiff|]. intros H. apply Hiff in H.
  clear - H. unfold keys. induction H as [|s loaded ss gd [Hk _] _ IH].
  - reflexivity.
  - cbn [map]. rewrite Hk, IH. reflexivity.
Qed.

Lemma first_xlsx_is_first_workbook_witness :
  first_xlsx [lit "A_env.csv"; lit "growth.xlsx"; lit "zz.xlsx"]
  = Some (lit "growth.xlsx").
Proof.
  apply (proj1 (first_xlsx_is_first_workbook
                  [lit "A_env.csv"; lit "growth.xlsx"; lit "zz.xlsx"])
               (lit "growth.xlsx")).
  exists [lit "A_env.csv"], [lit "zz.xlsx"].
  split; [reflexivity|]. split; [vm_compute; reflexivity|].
  repeat constructor.
Defined.

Lemma growth_loader_returns_sheets_witness :
  load_growth_data_body Cases.disk_two_workbooks = Ok (Some Sample.growth_AB) /\
  keys Sample.growth_AB = [lit "A"; lit "B"].
Proof.
  destruct (@growth_loader_returns_sheets Cases.disk_two_workbooks
              [lit "A_env.csv"; lit "growth.xlsx"; lit "zz.xlsx"]
              (lit "growth.xlsx") [lit "A"; lit "B"] Sample.growth_AB)
    as [Hiff Hkeys].
  - reflexivity.
  - vm_compute; reflexivity.
  - vm_compute; reflexivity.
  - constructor; [intros [H|[]]; vm_compute in H; discriminate|].
    constructor; [intros [] | constructor].
  - assert (Hb : load_growth_data_body Cases.disk_two_workbooks
                 = Ok (Some Sample.growth_AB)).
    { apply Hiff. repeat constructor. }
    split; [exact Hb | exact (Hkeys Hb)].
Defined.

(** ** The cache after a failure *)

(** X12.  A loader call whose body raises stores nothing: the entry stays
    empty, the other loader's entry is untouched, and the next call runs
    the body again on the directory as it then is. *)
Theorem failed_load_is_retried (s s1 : session) (fs1 fs2 : filesystem) (e : exn) :
  (load_environment_data s fs1 = (Raise e, s1) ->
     env_entry s1 = None /\ growth_entry s1 = growth_entry s /\
     body_runs s1 = S (body_runs s) /\
     fst (load_environment_data s1 fs2) = load_environment_data_body fs2 /\
     body_runs (snd (load_environment_data s1 fs2)) = S (body_runs s1)) /\
  (load_growth_data s fs1 = (Raise e, s1) ->
     growth_entry s1 = None /\ env_entry s1 = env_entry s /\
     body_runs s1 = S (body_runs s) /\
     fst (load_growth_data s1 fs2) = load_growth_data_body fs2 /\
     body_runs (snd (load_growth_data s1 fs2)) = S (body_runs s1)).
Proof.
  split; intros H.
  - unfold load_environment_data in H.
    destruct (env_entry s) as [v|] eqn:E; [discriminate|].
    destruct (load_environment_data_body fs1) as [v|e1]; inversion H; subst.
    unfold load_environment_data; cbn.
    destruct (load_environment_data_body fs2); repeat split.
  - unfold load_growth_data in H.
    destruct (growth_entry s) as [v|] eqn:E; [discriminate|].
    destruct (load_growth_data_body fs1) as [v|e1]; inversion H; subst.
    unfold load_growth_data; cbn.
    destruct (load_growth_data_body fs2); repeat split.
Qed.

Lemma failed_load_is_retried_witness :
  let s1 := snd (load_environment_data fresh_session Cases.disk_B_unreadable) in
  fst (load_environment_data s1 Sample.disk_AB) = Ok Sample.env_AB /\
  body_runs (snd (load_environment_data s1 Sample.disk_AB)) = 2%nat.
Proof.
  cbv zeta.
  destruct (@failed_load_is_retried fresh_session
              (snd (load_environment_data fresh_session Cases.disk_B_unreadable))
              Cases.disk_B_unreadable Sample.disk_AB OSError) as [He _].
  destruct He as (_ & _ & Hruns & Hres & Hruns2).
  - vm_compute; reflexivity.
  - rewrite Hres, Hruns2, Hruns. split; vm_compute; reflexivity.
Defined.

(** ** What the tabs can raise *)

Lemma nansum_raise (vs : list cell) (e : exn) :
  nansum vs = Raise e -> e = TypeError.
Proof.
  induction vs as [|[[q|]|t] vs IH]; simpl; intros H.
  - discriminate.
  - destruct (nansum vs); simpl in H; [discriminate|].
    inversion H; subst. apply IH; reflexivity.
  - apply IH; exact H.
  - inversion H; reflexivity.
Qed.

Lemma column_mean_raise (df : DataFrame) (c : str) (e : exn) :
  column_mean df c = Raise e -> e = KeyError \/ e = TypeError.
Proof.
  unfold column_mean, getitem, mean. intros H.
  destruct (has_column df c); cbn [bind] in H.
  - right.
    destruct (nansum (map (fun r => row_at r c) (rows df))) as [s|e'] eqn:Hs;
      cbn [bind] in H.
    + destruct (0 <? _)%nat; discriminate.
    + inversion H; subst. exact (nansum_raise _ Hs).
  - left. inversion H; reflexivity.
Qed.

Lemma column_mean_ok_numeric (df : DataFrame) (c : str) (m : float) :
  column_mean df c = Ok m -> numeric_column df c.
Proof.
  intros H. destruct (column_mean_spec _ _ H) as (col & Hcol & Hm).
  exists col. split; [exact Hcol|]. exact (proj1 (mean_spec _ Hm)).
Qed.

Lemma tab1_loop_raise (growth_data : dict DataFrame)
  (items : list (str * DataFrame)) (e : exn) :
  forall rows0 total0 temps0 hums0,
  tab1_loop items growth_data rows0 total0 temps0 hums0 = Raise e ->
  e = KeyError \/ e = TypeError.
Proof.
  induction items as [|[school df] rest IH]; intros rows0 total0 temps0 hums0 H.
  - discriminate.
  - cbn [tab1_loop] in H.
    destruct (column_mean df (lit "temperature")) as [t|e1] eqn:Ht;
      cbn [bind] in H.
    + destruct (column_mean df (lit "humidity")) as [h|e2] eqn:Hh;
        cbn [bind] in H.
      * exact (IH _ _ _ _ H).
      * inversion H; subst. exact (column_mean_raise _ _ Hh).
    + inversion H; subst. exact (column_mean_raise _ _ Ht).
Qed.

Lemma tab1_raise (env_data growth_data : dict DataFrame) (e : exn) :
  env_data <> [] ->
  tab1 env_data growth_data = Raise e -> e = KeyError \/ e = TypeError.
Proof.
  intros Hne. unfold tab1. intros H.
  destruct (tab1_loop env_data growth_data [] 0 [] []) as [res|e1] eqn:Hl;
    cbn [bind] in H.
  - exfalso.
    destruct (tab1_loop_ok _ _ _ _ _ _ Hl) as (ts & hs & Hts & Hhs & ->).
    cbn [app] in H.
    destruct env_data as [|item env]; [congruence|].
    inversion Hts; subst. inversion Hhs; subst. cbn in H. discriminate.
  - inversion H; subst. exact (tab1_loop_raise _ _ _ _ _ _ Hl).
Qed.

Lemma startup_check_proceed_inv (env_data env : dict DataFrame)
  (growth_data : option (dict DataFrame)) (g : dict DataFrame) :
  startup_check env_data growth_data = Proceed env g ->
  env_data = env /\ growth_data = Some g /\ env <> [] /\ g <> [].
Proof.
  unfold startup_check.
  destruct env_data as [|x xs]; [discriminate|].
  destruct growth_data as [[|y ys]|]; cbn; try discriminate.
  intros H; inversion H; subst. repeat split; discriminate.
Qed.

Lemma load_all_proceed (s s' : session) (fs : filesystem)
  (env_data growth_data : dict DataFrame) :
  load_all s fs = (Ok (Proceed env_data growth_data), s') ->
  env_data <> [] /\ growth_data <> [].
Proof.
  unfold load_all. intros H.
  destruct (load_environment_data s fs) as [[env|e] sa]; [|discriminate].
  destruct (load_growth_data sa fs) as [[g|e] sb]; [|discriminate].
  inversion H as [[Hc Hs]].
  apply startup_check_proceed_inv in Hc. tauto.
Qed.

(** X13.  After the start-up check has let a run pass, in any session,
    both mappings are non-empty; so the division by the number of groups
    in tab 1 cannot fail (tab 1 can only raise [KeyError] or [TypeError],
    from a column that is missing or holds text) and the concatenation of
    tab 3 does not raise. *)
Theorem past_startup_no_empty_input (s s' : session) (fs : filesystem)
  (env_data growth_data : dict DataFrame) :
  load_all s fs = (Ok (Proceed env_data growth_data), s') ->
  env_data <> [] /\ growth_data <> [] /\
  (forall e, tab1 env_data growth_data = Raise e ->
     e = KeyError \/ e = TypeError) /\
  (exists c, concat_df growth_data = Ok c).
Proof.
  intros H. destruct (load_all_proceed _ _ H) as [He Hg].
  split; [exact He|]. split; [exact Hg|]. split.
  - intros e. apply tab1_raise; exact He.
  - destruct (concat_df_spec Hg) as (c & Hc & _). exists c; exact Hc.
Qed.

Lemma past_startup_no_empty_input_witness :
  Sample.env_AB <> [] /\ exists c, concat_df Sample.growth_AB = Ok c.
Proof.
  destruct (@past_startup_no_empty_input fresh_session
              (snd (load_all fresh_session Sample.disk_AB)) Sample.disk_AB
              Sample.env_AB Sample.growth_AB) as (He & _ & _ & Hc).
  - vm_compute; reflexivity.
  - split; [exact He | exact Hc].
Defined.

(** ** The overview tab, continued *)

(** X14.  Tab 1 computes its table and metrics exactly when there is at
    least one environment table and every environment table has a
    temperature and a humidity column without text. *)
Theorem tab1_succeeds_iff (env_data growth_data : dict DataFrame) :
  (exists o, tab1 env_data growth_data = Ok o) <->
  env_data <> [] /\
  Forall (fun item => numeric_column (snd item) temperature /\
                      numeric_column (snd item) humidity) env_data.
Proof.
  split.
  - intros [o H].
    destruct (tab1_ok _ _ H) as (ts & hs & Hts & Hhs & _ & _ & Ht & _).
    split.
    + intros ->. unfold tab1 in H. cbn in H. discriminate.
    + clear H Ht. revert hs Hhs.
      induction Hts as [|item t env ts Ht _ IH]; intros hs Hhs; [constructor|].
      inversion Hhs as [|? h ? hs' Hh Hhs']; subst.
      constructor; [|exact (IH _ Hhs')].
      split; [exact (column_mean_ok_numeric _ _ Ht)
             | exact (column_mean_ok_numeric _ _ Hh)].
  - intros [Hne Hwf]. exact (tab1_total growth_data Hne Hwf).
Qed.

(** X15.  The overview table has one row per environment group, in the
    order of the environment mapping; the count of a row is the number of
    rows of the sheet with the group's name, 0 when there is no such
    sheet, and the total is the sum of the counts of the rows. *)
Theorem tab1_rows_and_total (env_data growth_data : dict DataFrame) (o : overview) :
  tab1 env_data growth_data = Ok o ->
  map ov_school (summary_rows o) = keys env_data /\
  Forall (fun r =>
            ov_count r = match dict_get growth_data (ov_school r) with
                         | Some df => len df
                         | None => 0%nat
                         end /\
            ov_ec_target r = dict_get ec_conditions (ov_school r) /\
            ov_color r = dict_get school_colors (ov_school r))
         (summary_rows o) /\
  total_count o = list_sum (map ov_count (summary_rows o)).
Proof.
  intros H.
  destruct (tab1_ok _ _ H) as (ts & hs & _ & _ & Hrows & Htot & _).
  rewrite Hrows, Htot. clear. repeat split.
  - unfold keys. rewrite map_map. reflexivity.
  - apply Forall_forall. intros r Hr. apply in_map_iff in Hr.
    destruct Hr as (item & <- & _). cbn. repeat split.
  - rewrite map_map. reflexivity.
Qed.





(** ** The environment averages *)

Lemma avg_df_rows_of (env_data : dict DataFrame) (a : list avg_row) :
  avg_df env_data = Ok a -> Forall2 avg_row_of env_data a.
Proof.
  revert a; induction env_data as [|[school df] rest IH]; simpl; intros a H.
  - inversion H; constructor.
  - destruct (column_mean df (lit "temperature")) as [t|] eqn:Ht; simpl in H; [|discriminate].
    destruct (column_mean df (lit "humidity")) as [h|] eqn:Hh; simpl in H; [|discriminate].
    destruct (column_mean df (lit "ph")) as [p|] eqn:Hp; simpl in H; [|discriminate].
    destruct (column_mean df (lit "ec")) as [e|] eqn:He; simpl in H; [|discriminate].
    destruct (avg_df rest) as [more|] eqn:Hm; simpl in H; [|discriminate].
    inversion H; subst a. constructor; [|apply IH; reflexivity].
    unfold avg_row_of; cbn [fst snd avg_school avg_temperature avg_humidity
                             avg_ph avg_ec avg_ec_target].
    repeat split; assumption.
Qed.

(** X17.  Tab 2 computes its averages exactly when every environment
    table has the four averaged columns without text; it then has one
    row per environment group, in the order of the mapping, whose four
    averages are the means of the table's columns. *)
Theorem avg_df_succeeds_iff (env_data : dict DataFrame) :
  ((exists a, avg_df env_data = Ok a) <->
   Forall (fun item => environment_table (snd item)) env_data) /\
  (forall a, avg_df env_data = Ok a ->
     map avg_school a = keys env_data /\ Forall2 avg_row_of env_data a).
Proof.
  split; [split|].
  - intros [a H]. apply avg_df_rows_of in H.
    induction H as [|item r env a (_ & Ht & Hh & Hp & He & _) _ IH]; constructor.
    + repeat split; eapply column_mean_ok_numeric; eassumption.
    + exact IH.
  - apply avg_df_total.
  - intros a H. apply avg_df_rows_of in H. split; [|exact H].
    unfold keys. induction H as [|item r env a (Hs & _) _ IH]; simpl.
    + reflexivity.
    + rewrite Hs, IH. reflexivity.
Qed.

(** X18.  The two averages of the overview are computed from the same
    per-group means as the bars of tab 2: each is the sum of the
    corresponding column of the table of tab 2 divided by its number of
    rows. *)
Theorem overview_average_from_tab2 (env_data growth_data : dict DataFrame)
  (o : overview) (a : list avg_row) :
  tab1 env_data growth_data = Ok o ->
  avg_df env_data = Ok a ->
  metric_avg_temperature o
    = fdiv_nat (py_sum (map avg_temperature a)) (List.length a) /\
  metric_avg_humidity o
    = fdiv_nat (py_sum (map avg_humidity a)) (List.length a).
Proof.
  intros Ho Ha.
  destruct (tab1_ok _ _ Ho) as (ts & hs & Hts & Hhs & _ & _ & Ht & Hh & _).
  apply avg_df_rows_of in Ha.
  assert (Ets : ts = map avg_temperature a).
  { clear - Hts Ha. revert ts Hts.
    induction Ha as [|item r env a (_ & Hr & _) _ IH]; intros ts Hts;
      inversion Hts as [|? t ? ts' Et Hts']; subst; [reflexivity|].
    cbn [map]. rewrite Hr in Et. inversion Et; subst. f_equal. exact (IH _ Hts'). }
  assert (Ehs : hs = map avg_humidity a).
  { clear - Hhs Ha. revert hs Hhs.
    induction Ha as [|item r env a (_ & _ & Hr & _) _ IH]; intros hs Hhs;
      inversion Hhs as [|? h ? hs' Eh Hhs']; subst; [reflexivity|].
    cbn [map]. rewrite Hr in Eh. inversion Eh; subst. f_equal. exact (IH _ Hhs'). }
  rewrite Ht, Hh, Ets, Ehs, !length_map. split; reflexivity.
Qed.

Lemma tab1_succeeds_iff_witness :
  exists o, tab1 Sample.env_AB [] = Ok o.
Proof.
  apply (proj2 (tab1_succeeds_iff Sample.env_AB [])).
  split; [discriminate|].
  repeat (constructor; [split; numeric_column_tac|]); constructor.
Defined.

Lemma tab1_rows_and_total_witness :
  exists o,
    tab1 Sample.env_AB Sample.growth_only_A = Ok o /\
    map ov_school (summary_rows o) = [lit "A"; lit "B"] /\
    total_count o = list_sum (map ov_count (summary_rows o)) /\
    total_count o = 3%nat.
Proof.
  destruct (tab1 Sample.env_AB Sample.growth_only_A) as [o|] eqn:H;
    [|vm_compute in H; discriminate].
  destruct (tab1_rows_and_total _ _ H) as (Hs & _ & Ht).
  exists o. split; [reflexivity|]. split; [exact Hs|]. split; [exact Ht|].
  vm_compute in H. inversion H; reflexivity.
Defined.


Lemma avg_df_succeeds_iff_witness :
  exists a, avg_df Sample.env_AB = Ok a /\
            map avg_school a = [lit "A"; lit "B"].
Proof.
  destruct (avg_df_succeeds_iff Sample.env_AB) as [Hiff Hrows].
  destruct (proj2 Hiff) as [a Ha].
  - repeat (constructor; [repeat split; numeric_column_tac|]); constructor.
  - exists a. split; [exact Ha|]. exact (proj1 (Hrows a Ha)).
Defined.

Lemma overview_average_from_tab2_witness :
  exists o a,
    tab1 Sample.env_AB [] = Ok o /\ avg_df Sample.env_AB = Ok a /\
    metric_avg_temperature o
      = fdiv_nat (py_sum (map avg_temperature a)) (List.length a).
Proof.
  destruct (tab1 Sample.env_AB []) as [o|] eqn:Ho;
    [|vm_compute in Ho; discriminate].
  destruct (avg_df Sample.env_AB) as [a|] eqn:Ha;
    [|vm_compute in Ha; discriminate].
  exists o, a. split; [reflexivity|]. split; [reflexivity|].
  exact (proj1 (@overview_average_from_tab2 Sample.env_AB [] o a Ho Ha)).
Defined.

(** ** The growth tab, continued *)

Lemma row_of_growth_table (item : str * DataFrame) (r : summary_row) :
  row_of item r -> growth_table (snd item).
Proof.
  intros (_ & _ & Hw & Hl & Hs & _).
  repeat split; eapply column_mean_ok_numeric; eassumption.
Qed.

(** X19.  The summary loop of tab 3 completes exactly when every sheet
    has the three measured columns without text; the summary then has
    one row per sheet, in the order of the sheets, carrying the sheet
    name, its number of rows and the configured EC of that name. *)
Theorem summary_succeeds_iff (growth_data : dict DataFrame) :
  ((exists sm, summary growth_data = Ok sm) <->
   Forall (fun item => growth_table (snd item)) growth_data) /\
  (forall sm, summary growth_data = Ok sm ->
     map row_school sm = keys growth_data /\
     map row_count sm = map (fun item => len (snd item)) growth_data /\
     map row_ec sm = map (fun item => dict_get ec_conditions (fst item))
                         growth_data).
Proof.
  split; [split|].
  - intros [sm H]. apply summary_rows_of in H.
    induction H as [|item r gd sm Hr _ IH]; constructor.
    + exact (@row_of_growth_table item r Hr).
    + exact IH.
  - apply summary_total.
  - intros sm H. apply summary_rows_of in H. unfold keys.
    induction H as [|item r gd sm (Hs & He & _ & _ & _ & Hc) _ (IH1 & IH2 & IH3)];
      simpl.
    + repeat split.
    + rewrite Hs, Hc, He, IH1, IH2, IH3. repeat split.
Qed.

Lemma best_ok (growth_data : dict DataFrame) (sm : list summary_row)
  (b : summary_row) :
  summary growth_data = Ok sm -> best sm = Ok b ->
  In b sm /\ (exists q, mean_fresh_weight b = Fin q) /\
  some_group_weighed growth_data.
Proof.
  intros Hsm Hb. unfold best in Hb.
  destruct (idxmax (map mean_fresh_weight sm)) as [i|] eqn:Hi;
    cbn [bind] in Hb; [|discriminate].
  unfold loc in Hb. destruct (nth_error sm i) as [b'|] eqn:Hn; [|discriminate].
  inversion Hb; subst b'.
  destruct (idxmax_first_maximum _ Hi) as (q & Hnth & _).
  rewrite nth_error_map, Hn in Hnth. cbn in Hnth. inversion Hnth as [Hq].
  assert (Hin : In b sm) by exact (nth_error_In _ _ Hn).
  split; [exact Hin|]. split; [exists q; exact Hq|].
  apply summary_rows_of in Hsm.
  destruct (Forall2_in_right b Hsm Hin) as ([school df] & Hitem & Hrow).
  destruct Hrow as (_ & _ & Hw & _). cbn [snd] in Hw. rewrite Hq in Hw.
  destruct (column_mean_spec _ _ Hw) as (col & Hcol & Hm).
  exists school, df, col. split; [exact Hitem|]. split; [exact Hcol|].
  exact (proj1 (@mean_number col q Hm)).
Qed.

(** X20.  Once the summary exists, the selection of the best group
    succeeds exactly when some group has a fresh weight that is not
    missing, and raises otherwise (a workbook whose sheets hold headers
    only passes the start-up check and fails here); the selected row is
    a row of the summary and its mean is a number, never NaN. *)
Theorem best_succeeds_iff (growth_data : dict DataFrame) (sm : list summary_row) :
  summary growth_data = Ok sm ->
  ((exists b, best sm = Ok b) <-> some_group_weighed growth_data) /\
  (~ some_group_weighed growth_data -> exists e, best sm = Raise e) /\
  (forall b, best sm = Ok b ->
     In b sm /\ exists q, mean_fresh_weight b = Fin q).
Proof.
  intros Hsm. split; [split|split].
  - intros [b Hb]. exact (proj2 (proj2 (@best_ok growth_data _ _ Hsm Hb))).
  - intros Hw. exact (@best_total _ _ Hsm Hw).
  - intros Hno. destruct (best sm) as [b|e] eqn:Hb.
    + exfalso. apply Hno. exact (proj2 (proj2 (@best_ok growth_data _ _ Hsm Hb))).
    + exists e; reflexivity.
  - intros b Hb. destruct (@best_ok growth_data sm b Hsm Hb) as (H1 & H2 & _). split; assumption.
Qed.


(** ** The page, continued *)


Lemma summary_succeeds_iff_witness :
  exists sm, summary Sample.growth_AB = Ok sm /\
             map row_school sm = [lit "A"; lit "B"] /\
             map row_count sm = [3%nat; 5%nat].
Proof.
  destruct (summary_succeeds_iff Sample.growth_AB) as [Hiff Hrows].
  destruct (proj2 Hiff) as [sm Hsm].
  - growth_table_tac.
  - exists sm. split; [exact Hsm|].
    destruct (Hrows sm Hsm) as (H1 & H2 & _). split; [exact H1 | exact H2].
Defined.

Lemma best_succeeds_iff_witness :
  exists sm, summary Cases.growth_all_empty = Ok sm /\
             exists e, best sm = Raise e.
Proof.
  destruct (summary Cases.growth_all_empty) as [sm|] eqn:Hsm;
    [|vm_compute in Hsm; discriminate].
  exists sm. split; [reflexivity|].
  apply (proj1 (proj2 (@best_succeeds_iff Cases.growth_all_empty sm Hsm))).
  intros (school & df & col & Hin & Hcol & Hne).
  destruct Hin as [Heq|[Heq|[]]]; inversion Heq; subst;
    vm_compute in Hcol; inversion Hcol; subst; apply Hne; reflexivity.
Defined.


(** ** Counts across the tabs *)

(** X22.  For a growth mapping returned by the growth loader, the count
    shown for a group in the overview table equals the count in the row
    of that group in the growth summary. *)
Theorem overview_count_matches_summary (fs : filesystem)
  (env_data growth_data : dict DataFrame) (o : overview)
  (sm : list summary_row) (orow : overview_row) (r : summary_row) :
  load_growth_data_body fs = Ok (Some growth_data) ->
  tab1 env_data growth_data = Ok o ->
  summary growth_data = Ok sm ->
  In orow (summary_rows o) -> In r sm ->
  ov_school orow = row_school r ->
  ov_count orow = row_count r.
Proof.
  intros Hload Ho Hsm Hin Hr Hs.
  destruct (tab1_ok _ _ Ho) as (_ & _ & _ & _ & Hrows & _).
  rewrite Hrows in Hin. apply in_map_iff in Hin.
  destruct Hin as (item & <- & _). cbn in Hs |- *.
  apply summary_rows_of in Hsm.
  destruct (Forall2_in_right r Hsm Hr) as ([k df] & Hk & Hrow).
  destruct Hrow as (Hrs & _ & _ & _ & _ & Hc). cbn [fst snd] in Hrs, Hc.
  rewrite Hc, Hs, Hrs. unfold specimen_count.
  rewrite (dict_get_NoDup_in growth_data k df
             (load_growth_data_body_NoDup _ Hload) Hk).
  reflexivity.
Qed.

Lemma sum_skip_key (k0 : str) (a : nat) (f : str -> nat) (ks : list str) :
  ~ In k0 ks ->
  list_sum (map (fun k => if str_eqb k0 k then a else f k) ks)
  = list_sum (map f ks).
Proof.
  induction ks as [|k ks IH]; simpl; intros H; [reflexivity|].
  destruct (str_eqb k0 k) eqn:E.
  - apply str_eqb_eq in E. exfalso; apply H; left; congruence.
  - rewrite IH; [reflexivity|]. intros Hin; apply H; right; exact Hin.
Qed.

Lemma sum_one_key_le (k0 : str) (a : nat) (f : str -> nat) (ks : list str) :
  NoDup ks ->
  (list_sum (map (fun k => if str_eqb k0 k then a else f k) ks)
   <= a + list_sum (map f ks))%nat.
Proof.
  induction 1 as [|k ks Hk _ IH]; simpl; [lia|].
  destruct (str_eqb k0 k) eqn:E.
  - apply str_eqb_eq in E; subst k0.
    rewrite (@sum_skip_key k a f ks Hk). lia.
  - lia.
Qed.

Lemma sum_one_key_eq (k0 : str) (a : nat) (f : str -> nat) (ks : list str) :
  NoDup ks -> In k0 ks -> f k0 = 0%nat ->
  list_sum (map (fun k => if str_eqb k0 k then a else f k) ks)
  = (a + list_sum (map f ks))%nat.
Proof.
  induction 1 as [|k ks Hk _ IH]; simpl; intros Hin H0; [contradiction|].
  destruct (str_eqb k0 k) eqn:E.
  - apply str_eqb_eq in E; subst k0.
    rewrite (@sum_skip_key k a f ks Hk). lia.
  - apply str_eqb_neq in E. destruct Hin as [Heq|Hin]; [congruence|].
    rewrite (IH Hin H0). lia.
Qed.

Lemma specimen_count_cons (k0 : str) (df0 : DataFrame)
  (growth_data : dict DataFrame) (k : str) :
  specimen_count ((k0, df0) :: growth_data) k
  = if str_eqb k0 k then len df0 else specimen_count growth_data k.
Proof.
  unfold specimen_count; simpl. destruct (str_eqb k0 k); reflexivity.
Qed.

Lemma counts_le_rows (growth_data : dict DataFrame) (ks : list str) :
  NoDup ks ->
  (list_sum (map (specimen_count growth_data) ks)
   <= list_sum (map (fun item => len (snd item)) growth_data))%nat.
Proof.
  intros Hnd. induction growth_data as [|[k0 df0] gd IH].
  - simpl. induction ks as [|k ks IHk]; simpl; [lia|].
    inversion Hnd; subst. specialize (IHk H2). unfold specimen_count in *.
    simpl in *. lia.
  - rewrite (map_ext _ _ (specimen_count_cons k0 df0 gd)).
    pose proof (@sum_one_key_le k0 (len df0) (specimen_count gd) ks Hnd).
    simpl. lia.
Qed.

Lemma counts_eq_rows (growth_data : dict DataFrame) (ks : list str) :
  NoDup ks -> NoDup (keys growth_data) ->
  (forall k, In k (keys growth_data) -> In k ks) ->
  list_sum (map (specimen_count growth_data) ks)
  = list_sum (map (fun item => len (snd item)) growth_data).
Proof.
  intros Hnd. induction growth_data as [|[k0 df0] gd IH]; intros Hg Hsub.
  - simpl. clear. induction ks as [|k ks IHk]; simpl; [reflexivity|].
    rewrite IHk. reflexivity.
  - rewrite (map_ext _ _ (specimen_count_cons k0 df0 gd)).
    cbn [keys map fst] in Hg, Hsub. inversion Hg as [|? ? Hk0 Hg']; subst.
    rewrite sum_one_key_eq.
    + simpl. rewrite IH; [reflexivity | exact Hg'|].
      intros k Hk. apply Hsub. right; exact Hk.
    + exact Hnd.
    + apply Hsub. left; reflexivity.
    + unfold specimen_count.
      rewrite (proj2 (dict_get_none_keys gd k0) Hk0). reflexivity.
Qed.

(** X23.  For mappings returned by the two loaders, the total count of
    the overview never exceeds the number of rows of the long-form table
    of tab 3, and equals it when every sheet has an environment file of
    its name; specimens of a sheet without environment file are in the
    long table and not in the total. *)
Theorem total_count_against_long_table (fs : filesystem)
  (env_data growth_data : dict DataFrame) (o : overview) (c : DataFrame) :
  load_environment_data_body fs = Ok env_data ->
  load_growth_data_body fs = Ok (Some growth_data) ->
  tab1 env_data growth_data = Ok o ->
  concat_df growth_data = Ok c ->
  (total_count o <= len c)%nat /\
  ((forall k, In k (keys growth_data) -> In k (keys env_data)) ->
   total_count o = len c).
Proof.
  intros He Hg Ho Hc.
  assert (Hne : growth_data <> []).
  { intros ->. unfold concat_df in Hc. cbn in Hc. discriminate. }
  destruct (concat_df_spec Hne) as (c' & Hc' & _ & Hlen & _).
  rewrite Hc in Hc'. inversion Hc'; subst c'. rewrite Hlen.
  destruct (tab1_ok _ _ Ho) as (_ & _ & _ & _ & _ & Htot & _).
  rewrite Htot.
  replace (map (fun item => specimen_count growth_data (fst item)) env_data)
    with (map (specimen_count growth_data) (keys env_data))
    by (unfold keys; rewrite map_map; reflexivity).
  pose proof (load_environment_data_body_NoDup _ He) as Hnd.
  pose proof (load_growth_data_body_NoDup _ Hg) as Hndg.
  split.
  - apply counts_le_rows; exact Hnd.
  - intros Hsub. apply counts_eq_rows; assumption.
Qed.

Lemma overview_count_matches_summary_witness :
  exists o sm,
    tab1 Sample.env_AB Sample.growth_AB = Ok o /\
    summary Sample.growth_AB = Ok sm /\
    forall orow r, In orow (summary_rows o) -> In r sm ->
      ov_school orow = row_school r -> ov_count orow = row_count r.
Proof.
  destruct (tab1 Sample.env_AB Sample.growth_AB) as [o|] eqn:Ho;
    [|vm_compute in Ho; discriminate].
  destruct (summary Sample.growth_AB) as [sm|] eqn:Hsm;
    [|vm_compute in Hsm; discriminate].
  exists o, sm. split; [reflexivity|]. split; [reflexivity|].
  intros orow r.
  apply (@overview_count_matches_summary Sample.disk_AB
           Sample.env_AB Sample.growth_AB o sm orow r);
    [vm_compute; reflexivity | exact Ho | exact Hsm].
Defined.

Lemma total_count_against_long_table_witness :
  exists o c,
    tab1 Sample.env_AB Cases.growth_ABC = Ok o /\
    concat_df Cases.growth_ABC = Ok c /\
    (total_count o <= len c)%nat /\ total_count o = 8%nat /\ len c = 10%nat.
Proof.
  destruct (tab1 Sample.env_AB Cases.growth_ABC) as [o|] eqn:Ho;
    [|vm_compute in Ho; discriminate].
  destruct (concat_df Cases.growth_ABC) as [c|] eqn:Hc;
    [|vm_compute in Hc; discriminate].
  exists o, c. split; [reflexivity|]. split; [reflexivity|]. split.
  - apply (@total_count_against_long_table Cases.disk_ABC
             Sample.env_AB Cases.growth_ABC o c);
      [vm_compute; reflexivity | vm_compute; reflexivity | exact Ho | exact Hc].
  - vm_compute in Ho, Hc. inversion Ho; inversion Hc. split; reflexivity.
Defined.

(** ** The long-form table, continued *)

Lemma union_columns_inv (cs acc : list str) (c : str) :
  In c (union_columns acc cs) -> In c acc \/ In c cs.
Proof.
  unfold union_columns. revert acc.
  induction cs as [|x cs IH]; simpl; intros acc H.
  - left; exact H.
  - apply IH in H. destruct H as [H|H]; [|right; right; exact H].
    destruct (existsb (str_eqb x) acc); [left; exact H|].
    apply in_app_or in H. destruct H as [H|[H|[]]];
      [left; exact H | right; left; exact H].
Qed.

Lemma concat_columns_inv (objs : list DataFrame) (acc : list str) (c : str) :
  In c (fold_left (fun a df => union_columns a (columns df)) objs acc) ->
  In c acc \/ (exists df, In df objs /\ In c (columns df)).
Proof.
  revert acc; induction objs as [|df objs IH]; simpl; intros acc H.
  - left; exact H.
  - apply IH in H. destruct H as [H|(df' & Hd & Hc)].
    + apply union_columns_inv in H. destruct H as [H|H]; [left; exact H|].
      right; exists df; split; [left; reflexivity | exact H].
    + right; exists df'; split; [right; exact Hd | exact Hc].
Qed.

Lemma assign_columns (df : DataFrame) (name : str) (v : cell) (c : str) :
  In c (columns (assign df name v)) <-> c = name \/ In c (columns df).
Proof.
  unfold assign; cbn [columns]. destruct (has_column df name) eqn:E.
  - apply existsb_str_in in E. split; [right; assumption|].
    intros [->|H]; assumption.
  - rewrite in_app_iff. simpl. split.
    + intros [H|[H|[]]]; [right; exact H | left; congruence].
    + intros [->|H]; [right; left; reflexivity | left; exact H].
Qed.

Lemma row_at_set_other (r : dict cell) (name c : str) (v : cell) :
  c <> name -> row_at (dict_set r name v) c = row_at r c.
Proof.
  intros H. unfold row_at. rewrite dict_get_set.
  destruct (str_eqb name c) eqn:E; [|reflexivity].
  apply str_eqb_eq in E; congruence.
Qed.

(** X24.  The columns of the long-form table are the school column and
    the columns of the sheets; every column other than the school column
    holds, sheet after sheet, the cells the sheets hold in it (a cell a
    row does not have reads as NaN): adding the school column changes no
    other cell. *)
Theorem concat_df_columns (growth_data : dict DataFrame) (c : DataFrame) :
  concat_df growth_data = Ok c ->
  (forall col, In col (columns c) <->
     col = school_column \/
     exists item, In item growth_data /\ In col (columns (snd item))) /\
  (forall col, col <> school_column -> In col (columns c) ->
     getitem c col =
       Ok (flat_map (fun item => map (fun r => row_at r col) (rows (snd item)))
                    growth_data)).
Proof.
  intros Hc.
  assert (Hne : growth_data <> []).
  { intros ->. unfold concat_df in Hc. cbn in Hc. discriminate. }
  destruct (concat_df_spec Hne) as (c' & Hc' & Hrows & _).
  rewrite Hc in Hc'. inversion Hc'; subst c'. clear Hc'.
  assert (Hcols : forall col, In col (columns c) <->
            col = school_column \/
            exists item, In item growth_data /\ In col (columns (snd item))).
  { unfold concat_df, concat in Hc.
    destruct (map _ growth_data) as [|o objs] eqn:Em.
    { destruct growth_data; [congruence | discriminate]. }
    rewrite <- Em in Hc. inversion Hc as [Hc']. cbn [columns]. clear Hc Hc'.
    intros col. split.
    - intros H. apply concat_columns_inv in H.
      destruct H as [[]|(df & Hdf & Hcol)].
      apply in_map_iff in Hdf. destruct Hdf as ([school d] & <- & Hin).
      apply assign_columns in Hcol. destruct Hcol as [->|Hcol].
      + left; reflexivity.
      + right. exists (school, d). split; assumption.
    - intros H. apply concat_columns_in. right.
      destruct H as [->|([school d] & Hin & Hcol)].
      + destruct growth_data as [|[school d] rest]; [congruence|].
        exists (assign d school_column (Text school)).
        split; [left; reflexivity | apply assign_has_column].
      + exists (assign d school_column (Text school)). split.
        * apply in_map_iff. exists (school, d). split; [reflexivity | exact Hin].
        * apply assign_columns. right; exact Hcol. }
  split; [exact Hcols|].
  intros col Hneq Hin. unfold getitem, has_column.
  rewrite (proj2 (existsb_str_in col (columns c)) Hin). f_equal.
  rewrite Hrows. clear - Hneq.
  induction growth_data as [|[school df] gd IH]; simpl; [reflexivity|].
  rewrite map_app, IH, map_map. f_equal.
  apply map_ext. intros r. apply row_at_set_other; exact Hneq.
Qed.

Lemma concat_df_columns_witness :
  exists c,
    concat_df Sample.growth_AB = Ok c /\
    getitem c fresh_weight =
      Ok (map (fun q => Float (Fin q))
              [1; 12 # 10; 14 # 10; 16 # 10; 17 # 10; 18 # 10; 19 # 10; 2]).
Proof.
  destruct (concat_df Sample.growth_AB) as [c|] eqn:Hc;
    [|vm_compute in Hc; discriminate].
  exists c. split; [reflexivity|].
  destruct (concat_df_columns _ Hc) as [Hcols Hcells].
  rewrite (Hcells fresh_weight).
  - reflexivity.
  - vm_compute; discriminate.
  - apply Hcols. right. exists (lit "A", Sample.growth_sheet [Some 1; Some (12 # 10); Some (14 # 10)]).
    split; [left; reflexivity | left; reflexivity].
Defined.

(** ** File names of the downloads *)

Lemma rfind_app (a b : str) (c : N) :
  (0 <= rfind b c)%Z ->
  rfind (a ++ b) c = (Z.of_nat (List.length a) + rfind b c)%Z.
Proof.
  intros H. induction a as [|x a IH].
  - simpl. lia.
  - cbn [app rfind List.length]. rewrite IH.
    destruct (0 <=? Z.of_nat (List.length a) + rfind b c)%Z eqn:E.
    + lia.
    + apply Z.leb_gt in E. lia.
Qed.

Lemma first_segment_app (a rest : str) :
  ~ In underscore a -> first_segment (a ++ underscore :: rest) = a.
Proof.
  induction a as [|x a IH]; simpl; intros H.
  - reflexivity.
  - destruct (x =? underscore)%N eqn:E.
    + apply N.eqb_eq in E. exfalso; apply H; left; exact E.
    + f_equal. apply IH. intros Hin; apply H; right; exact Hin.
Qed.

Lemma env_file_name_parts (school : str) :
  suffix (env_file_name school) = lit ".csv" /\
  stem (env_file_name school) = school ++ lit "_환경데이터".
Proof.
  unfold env_file_name.
  set (tail := lit "_환경데이터.csv").
  assert (Hr : rfind (school ++ tail) dot
               = (Z.of_nat (List.length school) + 6)%Z).
  { rewrite rfind_app; [reflexivity | vm_compute; discriminate]. }
  assert (Hl : List.length (school ++ tail) = (List.length school + 10)%nat).
  { rewrite length_app. reflexivity. }
  assert (Hcond : ((0 <? Z.of_nat (List.length school) + 6)
                   && (Z.of_nat (List.length school) + 6
                       <? Z.of_nat (List.length school + 10) - 1))%Z = true).
  { apply andb_true_iff. split; apply Z.ltb_lt; lia. }
  assert (Hn : Z.to_nat (Z.of_nat (List.length school) + 6)
               = (List.length school + 6)%nat) by lia.
  unfold suffix, stem. rewrite Hr, Hl, Hcond, Hn. split.
  - rewrite skipn_app, skipn_all2 by lia.
    replace (List.length school + 6 - List.length school)%nat with 6%nat by lia.
    reflexivity.
  - rewrite firstn_app_2. reflexivity.
Qed.

Lemma env_file_name_identity (school : str) :
  ~ In underscore school ->
  is_csv (env_file_name school) = true /\
  group_identity (env_file_name school) = school.
Proof.
  intros H. destruct (env_file_name_parts school) as [Hs Hst].
  unfold is_csv, group_identity. rewrite Hs, Hst. split.
  - apply str_eqb_refl.
  - change (lit "_환경데이터") with (underscore :: lit "환경데이터").
    apply first_segment_app; exact H.
Qed.

Lemma scan_env_file_names (ks : list str) :
  Forall (fun k => ~ In underscore k) ks ->
  forall acc,
  NoDup (keys acc ++ ks) ->
  scan_school_files (map env_file_name ks) acc
  = Ok (acc ++ map (fun k => (k, env_file_name k)) ks).
Proof.
  induction 1 as [|k ks Hk _ IH]; intros acc Hnd.
  - simpl. rewrite app_nil_r. reflexivity.
  - cbn [map scan_school_files].
    destruct (@env_file_name_identity k Hk) as [Hcsv Hid].
    unfold is_csv in Hcsv. rewrite Hcsv.
    rewrite split_first_segment. cbn [bind].
    fold (group_identity (env_file_name k)). rewrite Hid.
    assert (Hnew : ~ In k (keys acc)).
    { apply NoDup_remove_2 in Hnd. intros Hin; apply Hnd.
      apply in_or_app; left; exact Hin. }
    rewrite (dict_set_new acc k (env_file_name k) Hnew).
    rewrite IH.
    + rewrite <- app_assoc. reflexivity.
    + unfold keys. rewrite map_app. cbn [map fst].
      rewrite <- app_assoc. exact Hnd.
Qed.

(** X25.  The file name the download button of tab 2 gives to the table
    of a group leads back to the group: it has the [.csv] suffix and the
    group's key as its identity, so a directory made of the downloads of
    the groups of an environment-file mapping is scanned into a mapping
    with the same keys in the same order. *)
Theorem download_names_scan_back (entries : list str) (school_files : dict str) :
  scan_school_files entries [] = Ok school_files ->
  Forall (fun k => suffix (env_file_name k) = lit ".csv" /\
                   group_identity (env_file_name k) = k)
         (keys school_files) /\
  scan_school_files (map env_file_name (keys school_files)) []
    = Ok (map (fun k => (k, env_file_name k)) (keys school_files)).
Proof.
  intros H.
  assert (Hno : Forall (fun k => ~ In underscore k) (keys school_files)).
  { rewrite (scan_school_files_keys _ _ H). cbn [keys map app].
    apply Forall_forall. intros k Hin. apply filter_In in Hin.
    destruct Hin as [Hin _].
    apply first_occurrences_in, in_map_iff in Hin.
    destruct Hin as (f & <- & _). apply first_segment_no_underscore. }
  split.
  - apply Forall_forall. intros k Hin.
    rewrite Forall_forall in Hno.
    destruct (@env_file_name_identity k (Hno k Hin)) as [H1 H2].
    split; [apply str_eqb_eq; exact H1 | exact H2].
  - apply (@scan_env_file_names (keys school_files) Hno []). cbn [keys map app].
    exact (scan_school_files_NoDup _ H).
Qed.

Lemma download_names_scan_back_witness :
  scan_school_files
    (map env_file_name [lit "송도고"; lit "하늘고"]) []
  = Ok [ (lit "송도고", lit "송도고_환경데이터.csv");
         (lit "하늘고", lit "하늘고_환경데이터.csv") ].
Proof.
  destruct (@download_names_scan_back
              [lit "송도고_1.csv"; lit "하늘고_1.csv"]
              [ (lit "송도고", lit "송도고_1.csv");
                (lit "하늘고", lit "하늘고_1.csv") ]) as [_ H].
  - vm_compute; reflexivity.
  - exact H.
Defined.

(** ** The sidebar selection *)

(** X26.  Every option of the school selector other than "전체" is a key
    of the environment mapping, so [env_data[selected_school]] in tab 2
    does not raise [KeyError]; a group whose key is "전체" itself can
    never be selected as a single school. *)
Theorem selected_school_is_loaded (env_data : dict DataFrame)
  (selected_school : str) :
  In selected_school (schools env_data) ->
  selected_school <> all_schools ->
  exists df, dict_getitem env_data selected_school = Ok df /\
             In (selected_school, df) env_data.
Proof.
  unfold schools. intros [H|H] Hneq; [congruence|].
  unfold dict_getitem.
  destruct (dict_get env_data selected_school) as [df|] eqn:E.
  - exists df. split; [reflexivity | exact (dict_get_some_in _ _ E)].
  - apply dict_get_none_keys in E. contradiction.
Qed.

Lemma selected_school_is_loaded_witness :
  exists df, dict_getitem Sample.env_schools (lit "하늘고") = Ok df.
Proof.
  destruct (@selected_school_is_loaded Sample.env_schools (lit "하늘고"))
    as (df & H & _).
  - right; right; left; reflexivity.
  - vm_compute; discriminate.
  - exists df; exact H.
Defined.

(** ** Runs of a session *)



(** X28.  A run that stopped at the start-up check fixes the session: the
    missing or empty result is stored like any other, so every later run
    of the session stops with the same message even after the missing
    files have been put into the directory. *)
Theorem stopped_session_stays_stopped (s : session) (fs1 fs2 : filesystem)
  (message : str) :
  fst (script s fs1) = Stopped message ->
  fst (script (snd (script s fs1)) fs2) = Stopped message.
Proof.
  intros H.
  assert (Hl : load_all s fs1 = (Ok (Stop message), snd (script s fs1))).
  { unfold script in *. destruct (load_all s fs1) as [[[m|env g]|e] s'];
      cbn [fst snd] in *.
    - inversion H; reflexivity.
    - destruct (render env g); discriminate.
    - discriminate. }
  destruct (@script_rerun s (snd (script s fs1)) fs1 fs2 (Stop message) Hl)
    as [_ Hs].
  rewrite Hs. exact H.
Qed.

Lemma stopped_session_stays_stopped_witness :
  fst (script (snd (script fresh_session Cases.disk_no_workbook))
               Sample.disk_AB)
  = Stopped no_data_message /\
  exists p, fst (script fresh_session Sample.disk_AB) = Rendered p.
Proof.
  split.
  - apply (@stopped_session_stays_stopped fresh_session Cases.disk_no_workbook
             Sample.disk_AB no_data_message).
    vm_compute; reflexivity.
  - eexists. vm_compute; reflexivity.
Defined.
